(** * doskhiApi: a shallow embedding of the podcast-generation backend

    The development follows [doskhiApi.py]: a Flask application with four
    routes.  [generate_podcast] reads a JSON body, resolves a storage
    directory, asks a generative model for a script, optionally turns the
    script into speech and answers with JSON; [download_audio], [get_themes]
    and [test_endpoint] are one-liners.

    Conventions of the embedding.
    - A Python [str] is a [string]; each character is a code point, and the
      embedding covers the code points below 256.
    - A value decoded from JSON is a [json].  A Python [float] is never
      inspected by this program, so it is denoted by the value it was
      obtained from ([pyfloat]).
    - Everything outside the process (file system, the two upstream
      services) is a [World]: the outcome of each outside call, as a function
      of the arguments of the call.  The handler performs each outside call
      at most once per request.
    - The handler is written in a small monad [M] that records, in order,
      the outside calls that were attempted and the exceptions that were
      raised, and that carries Python's [try]/[except]. *)

From Stdlib Require Import String Ascii List ZArith NArith Bool Lia DecimalString.
From Stdlib Require Import DecimalZ.
Import ListNotations.
Open Scope string_scope.

(** ** Strings *)

Module Str.

Definition LF : string := String (ascii_of_nat 10) EmptyString.

Definition code (c : ascii) : nat := nat_of_ascii c.

Definition in_range (lo hi : nat) (c : ascii) : bool :=
  (lo <=? code c)%nat && (code c <=? hi)%nat.

(** [str.isspace] on one character, for the code points below 256:
    TAB..CR, FS..US, SPACE, NEL and NBSP. *)
Definition isspace (c : ascii) : bool :=
  in_range 9 13 c || in_range 28 32 c
  || Nat.eqb (code c) 133 || Nat.eqb (code c) 160.

Definition is_empty (s : string) : bool :=
  match s with EmptyString => true | String _ _ => false end.

Fixpoint lstrip (s : string) : string :=
  match s with
  | EmptyString => EmptyString
  | String c r => if isspace c then lstrip r else s
  end.

Fixpoint rstrip (s : string) : string :=
  match s with
  | EmptyString => EmptyString
  | String c r =>
      let r' := rstrip r in
      if isspace c && is_empty r' then EmptyString else String c r'
  end.

(** [s.strip()] *)
Definition strip (s : string) : string := rstrip (lstrip s).

(** [s.replace(old, new)] where [old] and [new] are one character long,
    the only way the program calls it. *)
Fixpoint replace (old new : ascii) (s : string) : string :=
  match s with
  | EmptyString => EmptyString
  | String c r =>
      String (if Ascii.eqb c old then new else c) (replace old new r)
  end.

(** [s.split(sep)] for a one-character separator. *)
Fixpoint split (sep : ascii) (s : string) : list string :=
  match s with
  | EmptyString => [EmptyString]
  | String c r =>
      if Ascii.eqb c sep then EmptyString :: split sep r
      else match split sep r with
           | [] => [String c EmptyString]
           | x :: xs => String c x :: xs
           end
  end.

(** [sep.join(l)] *)
Fixpoint join (sep : string) (l : list string) : string :=
  match l with
  | [] => EmptyString
  | [x] => x
  | x :: r => x ++ sep ++ join sep r
  end.

Fixpoint contains (c : ascii) (s : string) : bool :=
  match s with
  | EmptyString => false
  | String d r => Ascii.eqb d c || contains c r
  end.

Fixpoint starts_with (p s : string) : bool :=
  match p, s with
  | EmptyString, _ => true
  | String a p', String b s' => Ascii.eqb a b && starts_with p' s'
  | String _ _, EmptyString => false
  end.

(** ASCII lower-casing, enough for the keywords [float] recognises. *)
Definition lower_char (c : ascii) : ascii :=
  if in_range 65 90 c then ascii_of_nat (code c + 32) else c.

Fixpoint lower (s : string) : string :=
  match s with
  | EmptyString => EmptyString
  | String c r => String (lower_char c) (lower r)
  end.

Definition of_Z (z : Z) : string := NilZero.string_of_int (Z.to_int z).

Definition hex_digit (n : nat) : ascii :=
  if (n <? 10)%nat then ascii_of_nat (48 + n) else ascii_of_nat (87 + n).

(** [repr] of a string: quotes, backslash escapes, and [\xNN] for the code
    points that are not printable. *)
Definition printable (c : ascii) : bool :=
  negb (in_range 0 31 c || in_range 127 160 c || Nat.eqb (code c) 173).

Definition escape_char (quote c : ascii) : string :=
  if Ascii.eqb c quote || Ascii.eqb c "\"%char then String "\"%char (String c EmptyString)
  else if Nat.eqb (code c) 9 then "\t"
  else if Nat.eqb (code c) 10 then "\n"
  else if Nat.eqb (code c) 13 then "\r"
  else if printable c then String c EmptyString
  else String "\"%char (String "x"%char
         (String (hex_digit (code c / 16)) (String (hex_digit (code c mod 16)) EmptyString))).

Fixpoint escape (quote : ascii) (s : string) : string :=
  match s with
  | EmptyString => EmptyString
  | String c r => escape_char quote c ++ escape quote r
  end.

Definition dquote : ascii := ascii_of_nat 34.
Definition squote : ascii := "'"%char.

Definition repr (s : string) : string :=
  let q := if contains squote s && negb (contains dquote s)
           then dquote else squote in
  String q (escape q s ++ String q EmptyString).

End Str.

(** ** Paths: [pathlib.PurePosixPath] *)

(** A path is its root (empty, one slash or two) and its parts. *)
Record Path := mkPath { root : string; parts : list string }.

Module PathLib.

Definition is_part (s : string) : bool :=
  negb (Str.is_empty s) && negb (String.eqb s ".").

Definition splitroot (s : string) : string :=
  if Str.starts_with "/" s then
    if Str.starts_with "//" s && negb (Str.starts_with "///" s)
    then "//" else "/"
  else EmptyString.

(** [Path(s)]: empty segments and [.] segments are dropped, [..] is kept. *)
Definition parse (s : string) : Path :=
  mkPath (splitroot s) (filter is_part (Str.split "/" s)).

(** [p / s]: an absolute right operand replaces the left one. *)
Definition join (p : Path) (s : string) : Path :=
  let q := parse s in
  if Str.is_empty (root q) then mkPath (root p) (parts p ++ parts q)
  else q.

(** [str(p)] *)
Definition to_string (p : Path) : string :=
  match root p, parts p with
  | EmptyString, [] => "."
  | r, l => r ++ Str.join "/" l
  end.

End PathLib.

Notation "p // s" := (PathLib.join p s) (at level 40, left associativity).


(** ** Values decoded from JSON, and the builtins applied to them *)

#[local] Set Warnings "-register-all".

(** What [request.json] can hold.  A float is identified by its [repr]; a
    dict is the list of its items in insertion order. *)
Inductive json :=
| JNull
| JBool (b : bool)
| JInt (z : Z)
| JFloat (r : string)
| JStr (s : string)
| JArr (l : list json)
| JObj (items : list (string * json)).

(** A Python float, denoted by what it was converted from. *)
Inductive pyfloat :=
| FloatLit (r : string)
| FloatOfInt (z : Z)
| FloatOfStr (s : string).

(** An instance of [Exception]: its class and its [str()]. *)
Record exn := Exn { exn_type : string; exn_str : string }.

Module Py.

(** [type(v).__name__] *)
Definition type_name (v : json) : string :=
  match v with
  | JNull => "NoneType"
  | JBool _ => "bool"
  | JInt _ => "int"
  | JFloat _ => "float"
  | JStr _ => "str"
  | JArr _ => "list"
  | JObj _ => "dict"
  end.

Definition AttributeError (v : json) (attr : string) : exn :=
  Exn "AttributeError"
      ("'" ++ type_name v ++ "' object has no attribute '" ++ attr ++ "'").

(** [repr(v)] *)
Fixpoint repr (v : json) : string :=
  match v with
  | JNull => "None"
  | JBool true => "True"
  | JBool false => "False"
  | JInt z => Str.of_Z z
  | JFloat r => r
  | JStr s => Str.repr s
  | JArr l =>
      "[" ++ (fix elems (l : list json) : string :=
                match l with
                | [] => EmptyString
                | [x] => repr x
                | x :: r => repr x ++ ", " ++ elems r
                end) l ++ "]"
  | JObj items =>
      "{" ++ (fix elems (l : list (string * json)) : string :=
                match l with
                | [] => EmptyString
                | [(k, x)] => Str.repr k ++ ": " ++ repr x
                | (k, x) :: r => Str.repr k ++ ": " ++ repr x ++ ", " ++ elems r
                end) items ++ "}"
  end.

(** [str(v)], which is what an f-string field [{v}] expands to. *)
Definition str (v : json) : string :=
  match v with
  | JStr s => s
  | _ => repr v
  end.

(** [bool(v)] for a string. *)
Definition truthy (s : string) : bool := negb (Str.is_empty s).

(** [a or b] on strings. *)
Definition or_ (a b : string) : string := if truthy a then a else b.

(** Lookup in a list of items, the first binding of a key. *)
Fixpoint lookup {A : Type} (k : string) (items : list (string * A)) : option A :=
  match items with
  | [] => None
  | (k', v) :: r => if String.eqb k k' then Some v else lookup k r
  end.

(** [d.get(k, default)] *)
Definition get {A : Type} (items : list (string * A)) (k : string) (default : A) : A :=
  match lookup k items with
  | Some v => v
  | None => default
  end.

(** [k in d] *)
Definition mem {A : Type} (k : string) (items : list (string * A)) : bool :=
  match lookup k items with
  | Some _ => true
  | None => false
  end.

(** [list(d.keys())] *)
Definition keys {A : Type} (items : list (string * A)) : list string :=
  map fst items.

(** *** [float(v)] *)

(** White space that [float] skips around a string: the ASCII blanks, and
    the white space above 127, which is first turned into a blank. *)
Definition float_space (c : ascii) : bool :=
  Str.in_range 9 13 c || Nat.eqb (Str.code c) 32
  || Nat.eqb (Str.code c) 133 || Nat.eqb (Str.code c) 160.

Fixpoint float_lstrip (s : string) : string :=
  match s with
  | EmptyString => EmptyString
  | String c r => if float_space c then float_lstrip r else s
  end.

Fixpoint float_rstrip (s : string) : string :=
  match s with
  | EmptyString => EmptyString
  | String c r =>
      let r' := float_rstrip r in
      if float_space c && Str.is_empty r' then EmptyString else String c r'
  end.

Definition is_digit (c : ascii) : bool := Str.in_range 48 57 c.

Definition is_underscore (c : ascii) : bool := Ascii.eqb c "_".

(** An underscore is accepted only between two digits; [prev] is the
    character before [s]. *)
Fixpoint underscores_ok (prev : ascii) (s : string) : bool :=
  match s with
  | EmptyString => negb (is_underscore prev)
  | String c r =>
      (if is_underscore c then is_digit prev
       else negb (is_underscore prev) || is_digit c)
      && underscores_ok c r
  end.

Fixpoint remove_underscores (s : string) : string :=
  match s with
  | EmptyString => EmptyString
  | String c r =>
      if is_underscore c then remove_underscores r
      else String c (remove_underscores r)
  end.

Definition skip_sign (s : string) : string :=
  match s with
  | String c r => if Ascii.eqb c "+" || Ascii.eqb c "-" then r else s
  | EmptyString => s
  end.

(** The leading digits of [s]: how many, and what follows them. *)
Fixpoint span_digits (s : string) : nat * string :=
  match s with
  | String c r =>
      if is_digit c then let (n, t) := span_digits r in (S n, t) else (0, s)
  | EmptyString => (0, s)
  end.

(** digits [. digits] [e [sign] digits], with a digit in the mantissa. *)
Definition is_decimal (s : string) : bool :=
  let (n1, r1) := span_digits s in
  let (n2, r2) :=
    match r1 with
    | String c t => if Ascii.eqb c "." then span_digits t else (0, r1)
    | EmptyString => (0, r1)
    end in
  (0 <? n1 + n2)%nat
  && match r2 with
     | EmptyString => true
     | String c t =>
         (Ascii.eqb c "e" || Ascii.eqb c "E")
         && (let (n3, r3) := span_digits (skip_sign t) in
             (0 <? n3)%nat && Str.is_empty r3)
     end.

Definition is_inf_or_nan (s : string) : bool :=
  let l := Str.lower s in
  String.eqb l "inf" || String.eqb l "infinity" || String.eqb l "nan".

(** The strings [float] accepts. *)
Definition float_syntax (s : string) : bool :=
  let t := float_rstrip (float_lstrip s) in
  underscores_ok "000"%char t
  && (let u := skip_sign (remove_underscores t) in
      is_inf_or_nan u || is_decimal u).

(** The largest magnitude of an int that still rounds to a finite double. *)
Definition float_int_bound : Z := 2 ^ 1024 - 2 ^ 970.

Definition float (v : json) : exn + pyfloat :=
  match v with
  | JFloat r => inr (FloatLit r)
  | JBool b => inr (FloatLit (if b then "1.0" else "0.0"))
  | JInt z =>
      if (Z.abs z <? float_int_bound)%Z then inr (FloatOfInt z)
      else inl (Exn "OverflowError" "int too large to convert to float")
  | JStr s =>
      if float_syntax s then inr (FloatOfStr s)
      else inl (Exn "ValueError"
                    ("could not convert string to float: " ++ Str.repr s))
  | _ =>
      inl (Exn "TypeError"
               ("float() argument must be a string or a real number, not '"
                ++ type_name v ++ "'"))
  end.

End Py.


(** ** Effects *)

(** What a handler does to the outside, in the order it does it.  An outside
    call is recorded when it is attempted, whatever its outcome; [ERaise]
    marks the point where an exception is raised. *)
Inductive event :=
| EMkdir (p : Path)
| EGenerate (model prompt : string) (temperature : pyfloat)
| ESpeech (model : string) (voice : json) (input : string)
| EStreamToFile (audio : string) (p : Path)
| EPrint (line : string)
| ERaise (e : exn).

(** A computation: its trace, and either the exception that escapes it or
    its value. *)
Definition M (A : Type) : Type := list event * (exn + A).

Definition ret {A : Type} (a : A) : M A := ([], inr a).

Definition raise {A : Type} (e : exn) : M A := ([ERaise e], inl e).

Definition emit (ev : event) : M unit := ([ev], inr tt).

Definition bind {A B : Type} (m : M A) (f : A -> M B) : M B :=
  match m with
  | (t, inl e) => (t, inl e)
  | (t, inr a) => let (t', r) := f a in ((t ++ t')%list, r)
  end.

(** [try: m  except Exception as e: h e] *)
Definition try_except {A : Type} (m : M A) (h : exn -> M A) : M A :=
  match m with
  | (t, inl e) => let (t', r) := h e in ((t ++ t')%list, r)
  | (t, inr a) => (t, inr a)
  end.

(** The outcome of a call that returns a value or raises. *)
Definition lift {A : Type} (r : exn + A) : M A :=
  match r with
  | inl e => raise e
  | inr a => ret a
  end.

(** The outcome of a call that returns nothing or raises. *)
Definition lift_unit (r : option exn) : M unit :=
  match r with
  | Some e => raise e
  | None => ret tt
  end.

Declare Scope py_scope.
Delimit Scope py_scope with py.
Notation "x <- m ;; k" := (bind m (fun x => k))
  (at level 61, m at next level, right associativity) : py_scope.
Notation "m ;; k" := (bind m (fun _ => k))
  (at level 61, right associativity) : py_scope.
Open Scope py_scope.

Definition trace {A : Type} (m : M A) : list event := fst m.
Definition outcome {A : Type} (m : M A) : exn + A := snd m.

(** ** The outside world *)

(** The client object of the speech service. *)
Inductive Client := OpenAI (api_key : string).

(** The outcome of every call that leaves the process.
    - [mkdir p]: [p.mkdir(parents=True, exist_ok=True)];
    - [generate_content model prompt temperature]: the call on a
      [GenerativeModel], whose result is the outcome of reading the [text]
      of the response;
    - [speech_create client model voice input]: the audio returned by
      [client.audio.speech.create];
    - [stream_to_file audio p]: writing that audio to [p];
    - [exists_ p]: [p.exists()]. *)
Record World := mkWorld {
  mkdir : Path -> option exn;
  generate_content : string -> string -> pyfloat -> exn + (exn + string);
  speech_create : Client -> string -> json -> string -> exn + string;
  stream_to_file : string -> Path -> option exn;
  exists_ : Path -> bool
}.

(** ** Module-level state *)

Record Globals := mkGlobals {
  GEMINI_API_KEY : option string;
  OPENAI_API_KEY : option string;
  openai_client : option Client
}.

(** Truth value of what [os.getenv] returns. *)
Definition key_set (k : option string) : bool :=
  match k with
  | Some s => Py.truthy s
  | None => false
  end.

(** Lines 16 to 28: the two keys are read from the environment, and the
    speech client is built when its key is set and the constructor does not
    raise.  [genai.configure] only records the first key. *)
Definition module_init (getenv : string -> option string)
    (new_client : string -> exn + Client) : M Globals :=
  let gemini := getenv "GEMINI_API_KEY" in
  let openai := getenv "OPENAI_API_KEY" in
  client <-
    match openai with
    | Some k =>
        if Py.truthy k then
          try_except (c <- lift (new_client k) ;; ret (Some c))
            (fun e =>
               emit (EPrint ("Warning: OpenAI client initialization failed: "
                             ++ exn_str e)) ;;
               ret None)
        else ret None
    | None => ret None
    end ;;
  ret (mkGlobals gemini openai client).

Definition BASE_AUDIO_PATH : Path := PathLib.parse "audioFiles/topics".

Definition THEMES : list (string * string) :=
  [ ("CourageAndConsent", "Stories about empowerment, making informed choices, and understanding consent.");
    ("HealthAndHygiene", "Educational stories about physical health, cleanliness, and menstrual awareness.");
    ("KnowYourRights", "Informative stories about legal rights, gender equality, and self-advocacy.");
    ("MindMatters", "Narratives that focus on mental health, emotional intelligence, and resilience.");
    ("SafetyAndBoundaries", "Stories about personal safety, setting boundaries, and recognizing red flags.") ].

(** ** Responses *)

Inductive Payload :=
| Json (j : json)
| File (p : Path) (mimetype : string).

Record Response := mkResponse { status : Z; payload : Payload }.

(** [jsonify(d)] and [jsonify(d), code] *)
Definition jsonify (items : list (string * json)) : Response :=
  mkResponse 200 (Json (JObj items)).

Definition with_status (r : Response) (code : Z) : Response :=
  mkResponse code (payload r).

(** ** The handlers *)

Module Handlers.

Definition prompt_head : string :=
  Str.LF ++ "        You are a creative storyteller and animation director. Create a detailed, engaging narrative in ".

Definition prompt_tail : list string :=
  [ EmptyString;
    EmptyString;
    "        Imagine you're telling this story to a young audience. Use natural, conversational language. Include descriptive details, relatable situations, and a clear story arc with a beginning, middle, and end.";
    EmptyString;
    "        For each sentence or short phrase, provide a corresponding pose directive for the animated character. Use the following poses:";
    "        - Normal: Neutral stance, hands down.";
    "        - Cross: Hands closed.";
    "        - Greet: Single hand wave.";
    "        - Think: Chin touch, one eye slightly closed.";
    "        - Spread: Elbow-out hand opening.";
    "        - Point: Single hand point, palm open.";
    EmptyString;
    "        Output ONLY the narrative and pose directives in the format:";
    "        <sentence or short phrase>";
    "        [POSE: <pose_name>]";
    EmptyString;
    "        Ensure the poses naturally complement the story's emotions and actions, and that the transitions are smooth and suitable for audio synchronization.";
    "        " ].

Definition custom_description : string :=
  "This is a custom topic. Create an informative and engaging story.".

(** The f-string of lines 68 to 86. *)
Definition prompt (language : json) (topic custom_topic : string) : string :=
  prompt_head ++ Py.str language ++ " about " ++ Py.or_ topic custom_topic
    ++ ". " ++ Py.get THEMES topic custom_description
    ++ Str.join Str.LF prompt_tail.

(** [data.get(k, default)]: [data] has a [get] only when it is a dict. *)
Definition data_get (data : json) (k : string) (default : json) : M json :=
  match data with
  | JObj items => ret (Py.get items k default)
  | _ => raise (Py.AttributeError data "get")
  end.

(** [v.strip()]: [v] has a [strip] only when it is a string. *)
Definition strip (v : json) : M string :=
  match v with
  | JStr s => ret (Str.strip s)
  | _ => raise (Py.AttributeError v "strip")
  end.

(** The local variables bound by lines 45 to 50. *)
Record Fields := mkFields {
  topic : string;
  custom_topic : string;
  language : json;
  voice : json;
  temperature : pyfloat
}.

(** Lines 45 to 50: the fields are read in this order, and the first
    failure ends the reading. *)
Definition read_fields (request_json : exn + json) : M Fields :=
  data <- lift request_json ;;
  topic <- (v <- data_get data "topic" (JStr EmptyString) ;; strip v) ;;
  custom_topic <- (v <- data_get data "custom_topic" (JStr EmptyString) ;; strip v) ;;
  language <- data_get data "language" (JStr "Hindi") ;;
  voice <- data_get data "voice" (JStr "coral") ;;
  temperature <- (v <- data_get data "temperature" (JFloat "0.7") ;; lift (Py.float v)) ;;
  ret (mkFields topic custom_topic language voice temperature).

(** Lines 57 to 62. *)
Definition audio_folder (topic custom_topic : string) : Path :=
  if Py.mem topic THEMES then BASE_AUDIO_PATH // topic
  else BASE_AUDIO_PATH // "CustomTopics" // Str.replace " " "_" custom_topic.

(** Line 97. *)
Definition filename (topic custom_topic : string) : string :=
  Str.replace " " "_" (Py.or_ topic custom_topic) ++ ".mp3".

(** Line 98. *)
Definition speech_file_path (topic custom_topic : string) : Path :=
  audio_folder topic custom_topic // filename topic custom_topic.

(** Line 110. *)
Definition audio_url (topic custom_topic : string) : string :=
  if Py.truthy topic
  then "/stream-audio/" ++ topic ++ "/" ++ filename topic custom_topic
  else "/stream-audio/CustomTopics/" ++ custom_topic ++ "/"
         ++ filename topic custom_topic.

Definition error_response (message : string) (code : Z) : Response :=
  with_status (jsonify [("status", JStr "error"); ("message", JStr message)]) code.

Definition success_response (podcast_script : string) (audio_url : json) : Response :=
  jsonify [("status", JStr "success");
           ("script", JStr podcast_script);
           ("audio_url", audio_url)].

(** Lines 100 to 112: the speech step, with its own [try]. *)
Definition synthesize (g : Globals) (w : World) (f : Fields)
    (podcast_script : string) : M json :=
  match openai_client g with
  | Some client =>
      try_except
        (emit (ESpeech "gpt-4o-mini-tts" (voice f) podcast_script) ;;
         tts_response <-
           lift (speech_create w client "gpt-4o-mini-tts" (voice f) podcast_script) ;;
         let path := speech_file_path (topic f) (custom_topic f) in
         emit (EStreamToFile tts_response path) ;;
         lift_unit (stream_to_file w tts_response path) ;;
         ret (JStr (audio_url (topic f) (custom_topic f))))
        (fun e =>
           emit (EPrint ("Warning: OpenAI TTS failed: " ++ exn_str e)) ;;
           ret JNull)
  | None => ret JNull
  end.

(** Lines 52 to 118: validation, storage, script, speech, answer. *)
Definition respond (g : Globals) (w : World) (f : Fields) : M Response :=
  if negb (Py.truthy (topic f)) && negb (Py.truthy (custom_topic f)) then
    ret (error_response "Please provide a topic or custom topic" 400)
  else
    let folder := audio_folder (topic f) (custom_topic f) in
    emit (EMkdir folder) ;;
    lift_unit (mkdir w folder) ;;
    let prompt := prompt (language f) (topic f) (custom_topic f) in
    emit (EGenerate "gemini-2.0-flash" prompt (temperature f)) ;;
    response <- lift (generate_content w "gemini-2.0-flash" prompt (temperature f)) ;;
    podcast_script <- lift response ;;
    audio_url <- synthesize g w f podcast_script ;;
    ret (success_response podcast_script audio_url).

(** Lines 45 to 118: the body of the outer [try]. *)
Definition generate_podcast_body (g : Globals) (w : World)
    (request_json : exn + json) : M Response :=
  f <- read_fields request_json ;;
  respond g w f.

(** [POST /generate-podcast] *)
Definition generate_podcast (g : Globals) (w : World)
    (request_json : exn + json) : M Response :=
  try_except (generate_podcast_body g w request_json)
    (fun e => ret (error_response (exn_str e) 500)).

(** [GET /stream-audio/<category>/<filename>]; the route gives one segment
    to each of the two variables. *)
Definition download_audio (w : World) (category filename : string) : M Response :=
  let file_path := BASE_AUDIO_PATH // category // filename in
  if exists_ w file_path then ret (mkResponse 200 (File file_path "audio/mpeg"))
  else ret (error_response "File not found" 404).

(** [GET /themes] *)
Definition get_themes : M Response :=
  ret (jsonify [("themes", JArr (map JStr (Py.keys THEMES)))]).

(** [GET /test] *)
Definition test_endpoint (g : Globals) : M Response :=
  ret (jsonify [("status", JStr "success");
                ("message", JStr "API is working");
                ("gemini_key_set", JBool (key_set (GEMINI_API_KEY g)));
                ("openai_key_set", JBool (key_set (OPENAI_API_KEY g)))]).

End Handlers.

(** ** The application *)

Inductive Request :=
| POST_generate_podcast (request_json : exn + json)
| GET_stream_audio (category filename : string)
| GET_themes
| GET_test.

Definition handle (g : Globals) (w : World) (r : Request) : M Response :=
  match r with
  | POST_generate_podcast j => Handlers.generate_podcast g w j
  | GET_stream_audio c f => Handlers.download_audio w c f
  | GET_themes => Handlers.get_themes
  | GET_test => Handlers.test_endpoint g
  end.

(** Requests served one after the other; each meets the outside world as it
    is at that moment.  No handler assigns a module-level name, so the
    globals are those of start-up throughout. *)
Fixpoint serve (g : Globals) (rs : list (World * Request)) : list (M Response) :=
  match rs with
  | [] => []
  | (w, r) :: rest => handle g w r :: serve g rest
  end.


Import Handlers.

(** ** Vocabulary of the properties *)

(** Which events leave the process: the file-system operations and the
    calls to the two upstream services. *)
Definition is_filesystem (ev : event) : bool :=
  match ev with
  | EMkdir _ | EStreamToFile _ _ => true
  | _ => false
  end.

Definition is_upstream (ev : event) : bool :=
  match ev with
  | EGenerate _ _ _ | ESpeech _ _ _ => true
  | _ => false
  end.

Definition is_speech (ev : event) : bool :=
  match ev with
  | ESpeech _ _ _ => true
  | _ => false
  end.

(** The request passes the validation of line 53. *)
Definition accepted (f : Fields) : Prop :=
  topic f <> EmptyString \/ custom_topic f <> EmptyString.

(** The directory is created and the model returns [script]. *)
Definition script_generated (w : World) (f : Fields) (script : string) : Prop :=
  mkdir w (audio_folder (topic f) (custom_topic f)) = None
  /\ generate_content w "gemini-2.0-flash"
       (prompt (language f) (topic f) (custom_topic f)) (temperature f)
     = inr (inr script).

(** The speech client exists, returns [audio] for [script], and [audio] is
    written to the destination. *)
Definition synthesis_succeeds (g : Globals) (w : World) (f : Fields)
    (script audio : string) : Prop :=
  exists client,
    openai_client g = Some client
    /\ speech_create w client "gpt-4o-mini-tts" (voice f) script = inr audio
    /\ stream_to_file w audio (speech_file_path (topic f) (custom_topic f)) = None.

(** There is no speech client, or the speech call raises, or writing its
    audio raises. *)
Definition synthesis_fails (g : Globals) (w : World) (f : Fields)
    (script : string) : Prop :=
  openai_client g = None
  \/ exists client,
       openai_client g = Some client
       /\ ((exists e, speech_create w client "gpt-4o-mini-tts" (voice f) script = inl e)
           \/ (exists audio e,
                 speech_create w client "gpt-4o-mini-tts" (voice f) script = inr audio
                 /\ stream_to_file w audio
                      (speech_file_path (topic f) (custom_topic f)) = Some e)).

(** The body [items] is read without exception, as the fields [f]: topic
    and custom topic are strings, and the temperature becomes a float. *)
Definition reads_as (items : list (string * json)) (f : Fields) : Prop :=
  exists t c,
    Py.get items "topic" (JStr EmptyString) = JStr t
    /\ Py.get items "custom_topic" (JStr EmptyString) = JStr c
    /\ Py.float (Py.get items "temperature" (JFloat "0.7")) = inr (temperature f)
    /\ topic f = Str.strip t
    /\ custom_topic f = Str.strip c
    /\ language f = Py.get items "language" (JStr "Hindi")
    /\ voice f = Py.get items "voice" (JStr "coral").

(** The steps of the processing that come before the speech step, and the
    exception each of them raises, told from the request and the outside
    world alone: reading the JSON body, reading a field of it, trimming a
    topic, turning the temperature into a float, creating the folder,
    calling the model, reading the text of its response. *)
Inductive fails_before_speech (w : World) : exn + json -> exn -> Prop :=
| json_fails e :
    fails_before_speech w (inl e) e
| body_not_object data :
    (forall items, data <> JObj items) ->
    fails_before_speech w (inr data) (Py.AttributeError data "get")
| topic_not_string items v :
    Py.get items "topic" (JStr EmptyString) = v ->
    (forall s, v <> JStr s) ->
    fails_before_speech w (inr (JObj items)) (Py.AttributeError v "strip")
| custom_topic_not_string items t v :
    Py.get items "topic" (JStr EmptyString) = JStr t ->
    Py.get items "custom_topic" (JStr EmptyString) = v ->
    (forall s, v <> JStr s) ->
    fails_before_speech w (inr (JObj items)) (Py.AttributeError v "strip")
| temperature_not_float items t c e :
    Py.get items "topic" (JStr EmptyString) = JStr t ->
    Py.get items "custom_topic" (JStr EmptyString) = JStr c ->
    Py.float (Py.get items "temperature" (JFloat "0.7")) = inl e ->
    fails_before_speech w (inr (JObj items)) e
| folder_not_created items f e :
    reads_as items f ->
    accepted f ->
    mkdir w (audio_folder (topic f) (custom_topic f)) = Some e ->
    fails_before_speech w (inr (JObj items)) e
| model_call_fails items f e :
    reads_as items f ->
    accepted f ->
    mkdir w (audio_folder (topic f) (custom_topic f)) = None ->
    generate_content w "gemini-2.0-flash"
      (prompt (language f) (topic f) (custom_topic f)) (temperature f) = inl e ->
    fails_before_speech w (inr (JObj items)) e
| model_text_fails items f e :
    reads_as items f ->
    accepted f ->
    mkdir w (audio_folder (topic f) (custom_topic f)) = None ->
    generate_content w "gemini-2.0-flash"
      (prompt (language f) (topic f) (custom_topic f)) (temperature f)
    = inr (inl e) ->
    fails_before_speech w (inr (JObj items)) e.

(** Sample worlds and start-up states, used to run the handlers. *)
Module Demo.

(** Every outside call succeeds. *)
Definition calm : World :=
  mkWorld (fun _ => None)
          (fun _ _ _ => inr (inr "Once upon a time."))
          (fun _ _ _ _ => inr "ID3")
          (fun _ _ => None)
          (fun _ => false).

(** The audio cannot be written. *)
Definition disk_full : World :=
  mkWorld (fun _ => None)
          (fun _ _ _ => inr (inr "Once upon a time."))
          (fun _ _ _ _ => inr "ID3")
          (fun _ _ => Some (Exn "OSError" "[Errno 28] No space left on device"))
          (fun _ => false).

(** The speech service refuses the call. *)
Definition speech_down : World :=
  mkWorld (fun _ => None)
          (fun _ _ _ => inr (inr "Once upon a time."))
          (fun _ _ _ _ => inl (Exn "APIConnectionError" "Connection error."))
          (fun _ _ => None)
          (fun _ => false).

Definition both_keys : Globals :=
  mkGlobals (Some "gm-1") (Some "sk-1") (Some (OpenAI "sk-1")).

Definition other_keys : Globals :=
  mkGlobals (Some "gm-2") (Some "sk-2") (Some (OpenAI "sk-2")).

Definition no_speech_key : Globals :=
  mkGlobals (Some "gm-1") None None.

End Demo.

(** ** Start of the server *)

(** [int(s)] for a string, as CPython 3.11 reads it in base 10. *)
Module PyInt.

Definition is_digit_or_underscore (c : ascii) : bool :=
  Py.is_digit c || Py.is_underscore c.

(** The digits and underscores at the head of [s], and what follows. *)
Fixpoint scan (s : string) : string * string :=
  match s with
  | String c r =>
      if is_digit_or_underscore c
      then let (body, rest) := scan r in (String c body, rest)
      else (EmptyString, s)
  | EmptyString => (EmptyString, EmptyString)
  end.

Definition is_minus (s : string) : bool := Str.starts_with "-" s.

Definition max_str_digits : nat := 4300.

Definition invalid_literal (s : string) : exn :=
  Exn "ValueError"
      ("invalid literal for int() with base 10: "
       ++ String.substring 0 200 (Str.repr s)).

Definition exceeds_limit (digits : nat) : exn :=
  Exn "ValueError"
      ("Exceeds the limit (4300 digits) for integer string conversion: value has "
       ++ Str.of_Z (Z.of_nat digits)
       ++ " digits; use sys.set_int_max_str_digits() to increase the limit").

(** White space, a sign, digits with single underscores between them, white
    space.  The number of digits is checked as soon as the digits are
    scanned, before what follows them is looked at. *)
Definition int (s : string) : exn + Z :=
  let t := Py.float_lstrip s in
  let u := Py.skip_sign t in
  let (body, rest) := scan u in
  if negb (Py.underscores_ok "000"%char body) then inl (invalid_literal s)
  else
    let digits := Py.remove_underscores body in
    if (max_str_digits <? String.length digits)%nat
    then inl (exceeds_limit (String.length digits))
    else
      match NilEmpty.uint_of_string digits with
      | Some Decimal.Nil | None => inl (invalid_literal s)
      | Some d =>
          if Str.is_empty (Py.float_lstrip rest)
          then inr (if is_minus t then - Z.of_uint d else Z.of_uint d)%Z
          else inl (invalid_literal s)
      end.

End PyInt.

(** Lines 143 to 145: the arguments with which [app.run] is called, or the
    exception raised by reading the port.  [os.environ.get("PORT", 5000)]
    is the string of the environment, or the number 5000. *)
Definition main (getenv : string -> option string) : exn + (string * Z * bool) :=
  match
    match getenv "PORT" with
    | Some s => PyInt.int s
    | None => inr 5000%Z
    end
  with
  | inl e => inl e
  | inr port => inr ("0.0.0.0", port, true)
  end.

(** ** Vocabulary of the further properties *)

(** A call that leaves the process. *)
Definition is_outside (ev : event) : bool := is_filesystem ev || is_upstream ev.

(** Every character of the string is white space. *)
Fixpoint blank (s : string) : bool :=
  match s with
  | EmptyString => true
  | String c r => Str.isspace c && blank r
  end.

(** The four outside calls of a complete run, in the order of the source. *)
Definition full_run (folder : Path) (prompt : string) (temperature : pyfloat)
    (voice : json) (script audio : string) (file : Path) : list event :=
  [EMkdir folder;
   EGenerate "gemini-2.0-flash" prompt temperature;
   ESpeech "gpt-4o-mini-tts" voice script;
   EStreamToFile audio file].

(** * Properties *)

(** ** String and path facts *)

Section StringFacts.

Lemma replace_plain s :
  Str.contains "/" s = false ->
  Str.contains "/" (Str.replace " " "_" s) = false.
Proof.
  induction s as [|a s IH]; cbn [Str.contains Str.replace]; auto.
  intros H. apply orb_false_iff in H as [Ha Hs].
  rewrite (IH Hs), orb_false_r.
  destruct (Ascii.eqb_spec a " "); subst; auto.
Qed.

Lemma replace_empty s : Str.replace " " "_" s = EmptyString -> s = EmptyString.
Proof. destruct s; cbn [Str.replace]; congruence. Qed.

Lemma replace_dot s : Str.replace " " "_" s = "." -> s = ".".
Proof.
  destruct s as [|a [|b s]]; cbn [Str.replace]; try congruence.
  destruct (Ascii.eqb_spec a " "); congruence.
Qed.


Lemma split_plain s : Str.contains "/" s = false -> Str.split "/" s = [s].
Proof.
  induction s as [|a s IH]; cbn [Str.contains Str.split]; auto.
  intros H. apply orb_false_iff in H as [Ha Hs].
  rewrite Ha, (IH Hs). reflexivity.
Qed.

Lemma starts_with_plain s :
  Str.contains "/" s = false -> Str.starts_with "/" s = false.
Proof.
  destruct s as [|a s]; cbn [Str.contains Str.starts_with]; auto.
  intros H. apply orb_false_iff in H as [Ha _].
  rewrite Ascii.eqb_sym, Ha. reflexivity.
Qed.

(** A name without separator, other than the empty one and [.], is a
    path of one part. *)
Lemma parse_plain s :
  Str.contains "/" s = false -> s <> EmptyString -> s <> "." ->
  PathLib.parse s = mkPath EmptyString [s].
Proof.
  intros Hs He Hd. unfold PathLib.parse, PathLib.splitroot.
  rewrite starts_with_plain, split_plain by assumption.
  cbn [filter]. unfold PathLib.is_part.
  destruct s as [|a s]; [congruence|]. cbn [Str.is_empty negb andb].
  destruct (String.eqb_spec (String a s) "."); [congruence|]. reflexivity.
Qed.

Lemma join_plain p s :
  Str.contains "/" s = false -> s <> EmptyString -> s <> "." ->
  p // s = mkPath (root p) (parts p ++ [s]).
Proof.
  intros. unfold PathLib.join. rewrite parse_plain by assumption. reflexivity.
Qed.

Lemma join_empty p : p // EmptyString = mkPath (root p) (parts p).
Proof. unfold PathLib.join. cbn. now rewrite app_nil_r. Qed.


Lemma starts_with_replace s :
  Str.starts_with "/" (Str.replace " " "_" s) = Str.starts_with "/" s.
Proof.
  destruct s as [|a s]; cbn [Str.replace Str.starts_with]; [reflexivity|].
  destruct (Ascii.eqb_spec a " ") as [->|_]; reflexivity.
Qed.

Lemma starts_with_app t x :
  t <> EmptyString -> Str.starts_with "/" (t ++ x) = Str.starts_with "/" t.
Proof. destruct t; [congruence|reflexivity]. Qed.

Lemma split_nonempty s : Str.split "/" s <> [].
Proof.
  induction s as [|c s IH]; cbn [Str.split]; [discriminate|].
  destruct (Ascii.eqb c "/"); [discriminate|].
  destruct (Str.split "/" s); [congruence|discriminate].
Qed.

Lemma split_app a b :
  Str.split "/" (a ++ String "/" b)
  = (Str.split "/" a ++ Str.split "/" b)%list.
Proof.
  induction a as [|c a IH]; cbn [String.append Str.split].
  - reflexivity.
  - rewrite IH. destruct (Ascii.eqb c "/"); [reflexivity|].
    pose proof (split_nonempty a) as Hne.
    destruct (Str.split "/" a); [congruence|reflexivity].
Qed.

(** Joining a relative name to a path is writing the name after the
    path's text and a separator. *)
Lemma parse_text_join t s :
  Str.starts_with "/" t = false -> t <> EmptyString ->
  Str.starts_with "/" s = false ->
  PathLib.parse (t ++ String "/" s) = PathLib.parse t // s.
Proof.
  intros Ht Hne Hs. unfold PathLib.join, PathLib.parse, PathLib.splitroot.
  cbn [root parts]. rewrite (starts_with_app t _ Hne), Ht, Hs.
  cbn [Str.is_empty]. now rewrite split_app, filter_app.
Qed.

(** Joining an absolute name to a path forgets the path. *)
Lemma join_absolute p s :
  Str.starts_with "/" s = true -> p // s = PathLib.parse s.
Proof.
  intros Hs. unfold PathLib.join, PathLib.parse, PathLib.splitroot.
  cbn [root parts]. rewrite Hs.
  destruct (Str.starts_with "//" s && negb (Str.starts_with "///" s));
    reflexivity.
Qed.

End StringFacts.

(** ** Runs of the handler *)

Ltac unfold_monad :=
  cbv beta iota delta
    [bind ret raise emit lift lift_unit try_except trace outcome];
  cbn [app fst snd].

(** Case analysis on the innermost outcome that decides the run. *)
Ltac case_step :=
  match goal with
  | |- context [match ?x with _ => _ end] =>
      lazymatch x with
      | context [match _ with _ => _ end] => fail
      | _ => destruct x eqn:?; cbn [app fst snd]
      end
  end.

Section Runs.

Variables (g : Globals) (w : World).

Lemma accepted_validation f :
  accepted f ->
  negb (Py.truthy (topic f)) && negb (Py.truthy (custom_topic f)) = false.
Proof.
  unfold accepted, Py.truthy.
  destruct (topic f), (custom_topic f); cbn; intuition congruence.
Qed.

(** Once the fields are read, the handler is [respond] under the outer
    [except]. *)
Lemma generate_podcast_read req f :
  read_fields req = ret f ->
  generate_podcast g w req
  = try_except (respond g w f) (fun e => ret (error_response (exn_str e) 500)).
Proof.
  intros H. unfold generate_podcast, generate_podcast_body. rewrite H.
  unfold ret at 1. unfold bind. destruct (respond g w f) as [t r]. reflexivity.
Qed.

(** When the fields cannot be read, the exception is answered at once. *)
Lemma generate_podcast_unread req e :
  read_fields req = raise e ->
  generate_podcast g w req = ([ERaise e], inr (error_response (exn_str e) 500)).
Proof.
  intros H. unfold generate_podcast, generate_podcast_body. rewrite H.
  reflexivity.
Qed.

(** The handler always answers: no exception escapes it. *)
Lemma generate_podcast_answers req :
  exists r, outcome (generate_podcast g w req) = inr r.
Proof.
  unfold generate_podcast, try_except.
  destruct (generate_podcast_body g w req) as [t [e|r]]; eexists; reflexivity.
Qed.

(** Reading the fields performs no outside call: it returns them, or it
    raises. *)
Lemma read_fields_cases req :
  (exists f, read_fields req = ret f) \/ (exists e, read_fields req = raise e).
Proof.
  unfold read_fields, data_get, strip.
  destruct req as [e|data]; [right; eexists; reflexivity|].
  destruct data; try (right; eexists; reflexivity).
  unfold_monad.
  destruct (Py.get items "topic" (JStr EmptyString));
    try (right; eexists; reflexivity).
  destruct (Py.get items "custom_topic" (JStr EmptyString));
    try (right; eexists; reflexivity).
  destruct (Py.float (Py.get items "temperature" (JFloat "0.7")));
    [right|left]; eexists; reflexivity.
Qed.

Lemma respond_rejected f :
  topic f = EmptyString -> custom_topic f = EmptyString ->
  respond g w f = ret (error_response "Please provide a topic or custom topic" 400).
Proof. intros Ht Hc. unfold respond. rewrite Ht, Hc. reflexivity. Qed.

(** The first thing an accepted request does is to create its folder. *)
Lemma respond_mkdir f :
  accepted f ->
  exists rest,
    trace (respond g w f)
    = EMkdir (audio_folder (topic f) (custom_topic f)) :: rest
    /\ (mkdir w (audio_folder (topic f) (custom_topic f)) = None ->
        exists rest',
          rest = EGenerate "gemini-2.0-flash"
                   (prompt (language f) (topic f) (custom_topic f))
                   (temperature f) :: rest').
Proof.
  intros Ha. unfold respond. rewrite (accepted_validation f Ha).
  unfold_monad.
  repeat case_step; eexists; (split; [reflexivity|]); intros;
    try discriminate; eexists; reflexivity.
Qed.

Lemma synthesize_success f script audio :
  synthesis_succeeds g w f script audio ->
  synthesize g w f script
  = ([ESpeech "gpt-4o-mini-tts" (voice f) script;
      EStreamToFile audio (speech_file_path (topic f) (custom_topic f))],
     inr (JStr (audio_url (topic f) (custom_topic f)))).
Proof.
  intros (c & Hc & Hs & Hw). unfold synthesize. rewrite Hc.
  unfold_monad. rewrite Hs, Hw. reflexivity.
Qed.

Lemma synthesize_failure f script :
  synthesis_fails g w f script ->
  outcome (synthesize g w f script) = inr JNull.
Proof.
  unfold synthesize.
  intros [Hc | (c & Hc & [(e & Hs) | (audio & e & Hs & Hw)])]; rewrite Hc;
    [reflexivity| |]; unfold_monad; rewrite Hs; [reflexivity|].
  rewrite Hw. reflexivity.
Qed.

(** The whole run when every step succeeds. *)
Lemma respond_success f script audio :
  accepted f ->
  script_generated w f script ->
  synthesis_succeeds g w f script audio ->
  respond g w f
  = ([EMkdir (audio_folder (topic f) (custom_topic f));
      EGenerate "gemini-2.0-flash"
        (prompt (language f) (topic f) (custom_topic f)) (temperature f);
      ESpeech "gpt-4o-mini-tts" (voice f) script;
      EStreamToFile audio (speech_file_path (topic f) (custom_topic f))],
     inr (success_response script
            (JStr (audio_url (topic f) (custom_topic f))))).
Proof.
  intros Ha [Hm Hg] Hs. unfold respond. rewrite (accepted_validation f Ha).
  unfold_monad. rewrite Hm. unfold_monad. rewrite Hg. unfold_monad.
  rewrite (synthesize_success f script audio Hs). reflexivity.
Qed.

Lemma respond_no_audio f script :
  accepted f ->
  script_generated w f script ->
  synthesis_fails g w f script ->
  outcome (respond g w f) = inr (success_response script JNull).
Proof.
  intros Ha [Hm Hg] Hs. unfold respond. rewrite (accepted_validation f Ha).
  pose proof (synthesize_failure f script Hs) as Hf.
  unfold_monad. rewrite Hm. unfold_monad. rewrite Hg. unfold_monad.
  destruct (synthesize g w f script) as [t r]. unfold outcome in Hf.
  cbn [snd] in Hf. subst r. reflexivity.
Qed.

End Runs.

(** ** POST /generate-podcast: validation *)

(** C1 (as amended).  When topic and custom_topic are both empty after
    trimming, the handler performs no file-system operation and no upstream
    call; it answers 400 with status "error" and the fixed message whenever
    the temperature can be turned into a float, and 500 with the message of
    the conversion error otherwise, because line 50 runs before the
    validation of line 53. *)
Theorem C1_empty_topics_rejected g w items t c :
  Py.get items "topic" (JStr EmptyString) = JStr t ->
  Py.get items "custom_topic" (JStr EmptyString) = JStr c ->
  Str.strip t = EmptyString ->
  Str.strip c = EmptyString ->
  let run := generate_podcast g w (inr (JObj items)) in
  (forall ev, In ev (trace run) -> is_filesystem ev = false /\ is_upstream ev = false)
  /\ match Py.float (Py.get items "temperature" (JFloat "0.7")) with
     | inr _ =>
         run = ret (error_response "Please provide a topic or custom topic" 400)
     | inl e =>
         run = ([ERaise e], inr (error_response (exn_str e) 500))
     end.
Proof.
  intros Ht Hc St Sc run. subst run.
  unfold generate_podcast, generate_podcast_body, read_fields, data_get, strip.
  unfold_monad. rewrite Ht, Hc. unfold_monad.
  destruct (Py.float (Py.get items "temperature" (JFloat "0.7"))) as [e|x];
    unfold_monad.
  - split; [|reflexivity].
    intros ev [<-|[]]. split; reflexivity.
  - unfold respond. cbn [topic custom_topic]. rewrite St, Sc.
    split; [|reflexivity]. intros ev [].
Qed.

Lemma C1_empty_topics_rejected_witness :
  generate_podcast Demo.both_keys Demo.calm
    (inr (JObj [("topic", JStr "  "); ("language", JStr "English")]))
  = ret (error_response "Please provide a topic or custom topic" 400).
Proof.
  exact (proj2 (C1_empty_topics_rejected Demo.both_keys Demo.calm
                  [("topic", JStr "  "); ("language", JStr "English")]
                  "  " EmptyString eq_refl eq_refl eq_refl eq_refl)).
Defined.

(** C1 as it is written fails: with both topics blank and a temperature that
    is not a number, the answer is 500, not 400. *)
Lemma C1_counterexample :
  let items := [("topic", JStr "  "); ("custom_topic", JStr EmptyString);
                ("temperature", JStr "abc")] in
  strip (Py.get items "topic" (JStr EmptyString)) = ret EmptyString
  /\ strip (Py.get items "custom_topic" (JStr EmptyString)) = ret EmptyString
  /\ outcome (generate_podcast Demo.both_keys Demo.calm (inr (JObj items)))
     = inr (error_response "could not convert string to float: 'abc'" 500)
  /\ status (error_response "could not convert string to float: 'abc'" 500) <> 400%Z.
Proof. repeat split. discriminate. Qed.

(** ** GET /themes and GET /test *)

(** C8.  Whatever requests were served before, and whatever the outside
    world did meanwhile, GET /themes answers with the five identifiers of
    the registry, in the order of the registry. *)
Theorem C8_themes_stable g before w :
  nth_error (serve g (before ++ [(w, GET_themes)])) (length before)
  = Some (ret (jsonify
       [("themes",
         JArr [JStr "CourageAndConsent"; JStr "HealthAndHygiene";
               JStr "KnowYourRights"; JStr "MindMatters";
               JStr "SafetyAndBoundaries"])])).
Proof.
  induction before as [|[w' r] before IH]; [reflexivity|].
  cbn [app serve length nth_error]. exact IH.
Qed.

(** C9.  Two start-up states whose keys are set or unset alike get the same
    answer from GET /test, in any two worlds: the answer depends on the
    keys only through the two booleans it carries. *)
Theorem C9_test_reveals_booleans_only g1 g2 w1 w2 :
  key_set (GEMINI_API_KEY g1) = key_set (GEMINI_API_KEY g2) ->
  key_set (OPENAI_API_KEY g1) = key_set (OPENAI_API_KEY g2) ->
  handle g1 w1 GET_test = handle g2 w2 GET_test
  /\ handle g1 w1 GET_test
     = ret (jsonify [("status", JStr "success");
                     ("message", JStr "API is working");
                     ("gemini_key_set", JBool (key_set (GEMINI_API_KEY g1)));
                     ("openai_key_set", JBool (key_set (OPENAI_API_KEY g1)))]).
Proof.
  intros Hg Ho. cbn [handle]. unfold test_endpoint. rewrite Hg, Ho.
  split; reflexivity.
Qed.

Lemma C9_test_reveals_booleans_only_witness :
  handle Demo.both_keys Demo.calm GET_test
  = handle Demo.other_keys Demo.disk_full GET_test.
Proof.
  exact (proj1 (C9_test_reveals_booleans_only Demo.both_keys Demo.other_keys
                  Demo.calm Demo.disk_full eq_refl eq_refl)).
Defined.

(** ** POST /generate-podcast: storage layout and prompt *)

Section Layout.

Variables (g : Globals) (w : World).

(** The outer [except] adds nothing to the trace. *)
Lemma generate_podcast_trace req f :
  read_fields req = ret f ->
  trace (generate_podcast g w req) = trace (respond g w f).
Proof.
  intros H. rewrite (generate_podcast_read g w req f H).
  destruct (respond g w f) as [t [e|r]]; unfold_monad; [|reflexivity].
  apply app_nil_r.
Qed.

Lemma generate_podcast_success req f script audio :
  read_fields req = ret f ->
  accepted f ->
  script_generated w f script ->
  synthesis_succeeds g w f script audio ->
  generate_podcast g w req
  = ([EMkdir (audio_folder (topic f) (custom_topic f));
      EGenerate "gemini-2.0-flash"
        (prompt (language f) (topic f) (custom_topic f)) (temperature f);
      ESpeech "gpt-4o-mini-tts" (voice f) script;
      EStreamToFile audio (speech_file_path (topic f) (custom_topic f))],
     inr (success_response script
            (JStr (audio_url (topic f) (custom_topic f))))).
Proof.
  intros Hr Ha Hg Hs. rewrite (generate_podcast_read g w req f Hr).
  rewrite (respond_success g w f script audio Ha Hg Hs). reflexivity.
Qed.

Lemma lookup_In {A : Type} k (items : list (string * A)) v :
  Py.lookup k items = Some v -> In (k, v) items.
Proof.
  induction items as [|[k' v'] items IH]; cbn [Py.lookup In]; [discriminate|].
  destruct (String.eqb_spec k k') as [->|_].
  - intros [= ->]. now left.
  - intros H. right. exact (IH H).
Qed.

Lemma theme_folder topic description :
  Py.lookup topic THEMES = Some description ->
  topic <> EmptyString
  /\ (forall custom_topic, audio_folder topic custom_topic = BASE_AUDIO_PATH // topic)
  /\ PathLib.to_string (BASE_AUDIO_PATH // topic) = "audioFiles/topics/" ++ topic.
Proof.
  intros H. pose proof (lookup_In _ _ _ H) as Hin.
  assert (Hm : Py.mem topic THEMES = true) by (unfold Py.mem; now rewrite H).
  split; [|split].
  - intros ->. discriminate H.
  - intros c. unfold audio_folder. now rewrite Hm.
  - clear H Hm. cbn [In THEMES] in Hin.
    repeat (destruct Hin as [[= <- <-]|Hin]; [reflexivity|]).
    destruct Hin.
Qed.

Lemma theme_prompt language topic custom_topic description :
  Py.lookup topic THEMES = Some description ->
  prompt language topic custom_topic
  = prompt_head ++ Py.str language ++ " about " ++ topic ++ ". "
      ++ description ++ Str.join Str.LF prompt_tail.
Proof.
  intros H. destruct (theme_folder _ _ H) as (Hne & _).
  unfold prompt, Py.get, Py.or_, Py.truthy. rewrite H.
  destruct topic; [congruence|reflexivity].
Qed.

End Layout.

(** C4.  When the trimmed topic is one of the registered themes, the folder
    the handler creates is the base path joined with the topic, which prints
    as audioFiles/topics/<topic>, and the prompt sent to the model carries,
    right after the topic, that theme's description from the registry. *)
Theorem C4_theme_folder_and_description g w req f description :
  read_fields req = ret f ->
  Py.lookup (topic f) THEMES = Some description ->
  PathLib.to_string (BASE_AUDIO_PATH // topic f) = "audioFiles/topics/" ++ topic f
  /\ exists rest,
       trace (generate_podcast g w req)
       = EMkdir (BASE_AUDIO_PATH // topic f) :: rest
       /\ (mkdir w (BASE_AUDIO_PATH // topic f) = None ->
           exists rest',
             rest = EGenerate "gemini-2.0-flash"
                      (prompt_head ++ Py.str (language f) ++ " about "
                         ++ topic f ++ ". " ++ description
                         ++ Str.join Str.LF prompt_tail)
                      (temperature f) :: rest').
Proof.
  intros Hr Hl. destruct (theme_folder _ _ Hl) as (Hne & Hf & Hs).
  split; [exact Hs|].
  rewrite (generate_podcast_trace g w req f Hr).
  destruct (respond_mkdir g w f (or_introl Hne)) as (rest & Ht & Hgen).
  rewrite Hf in Ht, Hgen.
  rewrite (theme_prompt _ _ _ _ Hl) in Hgen.
  exists rest. split; [exact Ht|exact Hgen].
Qed.

Lemma C4_theme_folder_and_description_witness :
  PathLib.to_string (BASE_AUDIO_PATH // "KnowYourRights")
  = "audioFiles/topics/KnowYourRights"
  /\ exists rest,
       trace (generate_podcast Demo.both_keys Demo.calm
                (inr (JObj [("topic", JStr " KnowYourRights ")])))
       = EMkdir (BASE_AUDIO_PATH // "KnowYourRights") :: rest
       /\ (mkdir Demo.calm (BASE_AUDIO_PATH // "KnowYourRights") = None ->
           exists rest',
             rest = EGenerate "gemini-2.0-flash"
                      (prompt_head ++ "Hindi" ++ " about "
                         ++ "KnowYourRights" ++ ". "
                         ++ "Informative stories about legal rights, gender equality, and self-advocacy."
                         ++ Str.join Str.LF prompt_tail)
                      (FloatLit "0.7") :: rest').
Proof.
  exact (C4_theme_folder_and_description Demo.both_keys Demo.calm
           (inr (JObj [("topic", JStr " KnowYourRights ")]))
           (mkFields "KnowYourRights" EmptyString (JStr "Hindi") (JStr "coral")
              (FloatLit "0.7"))
           "Informative stories about legal rights, gender equality, and self-advocacy."
           eq_refl eq_refl).
Defined.

(** C5 (as amended).  When the trimmed topic is not a registered theme and
    the trimmed custom topic is not empty, the folder the handler creates
    is the path audioFiles/topics/CustomTopics/<custom topic with every
    space replaced by an underscore> when the custom topic does not begin
    with a slash; when it does, the join of [pathlib] drops the base path
    and the folder is the absolute path <custom topic with every space
    replaced by an underscore> itself.  For a custom topic that is a plain
    name the folder prints as audioFiles/topics/CustomTopics/<name>. *)
Theorem C5_custom_folder g w req f :
  read_fields req = ret f ->
  Py.mem (topic f) THEMES = false ->
  custom_topic f <> EmptyString ->
  let sanitized := Str.replace " " "_" (custom_topic f) in
  exists folder rest,
    trace (generate_podcast g w req) = EMkdir folder :: rest
    /\ (if Str.starts_with "/" (custom_topic f)
        then folder = PathLib.parse sanitized
        else folder = PathLib.parse ("audioFiles/topics/CustomTopics/" ++ sanitized))
    /\ (Str.contains "/" (custom_topic f) = false ->
        custom_topic f <> "." ->
        PathLib.to_string folder = "audioFiles/topics/CustomTopics/" ++ sanitized).
Proof.
  intros Hr Hm Hc sanitized.
  rewrite (generate_podcast_trace g w req f Hr).
  destruct (respond_mkdir g w f (or_intror Hc)) as (rest & Ht & _).
  unfold audio_folder in Ht. rewrite Hm in Ht. fold sanitized in Ht.
  exists (BASE_AUDIO_PATH // "CustomTopics" // sanitized), rest.
  split; [exact Ht|]. split.
  - destruct (Str.starts_with "/" (custom_topic f)) eqn:Hs.
    + apply join_absolute. subst sanitized. now rewrite starts_with_replace.
    + symmetry.
      apply (parse_text_join "audioFiles/topics/CustomTopics" sanitized);
        [reflexivity|discriminate|].
      subst sanitized. now rewrite starts_with_replace.
  - intros Hp Hd. subst sanitized. rewrite join_plain.
    + reflexivity.
    + now apply replace_plain.
    + intros E. apply Hc. now apply replace_empty.
    + intros E. apply Hd. now apply replace_dot.
Qed.

Lemma C5_custom_folder_witness :
  exists folder rest,
    trace (generate_podcast Demo.both_keys Demo.calm
             (inr (JObj [("custom_topic", JStr " Saving Water ")])))
    = EMkdir folder :: rest
    /\ folder = PathLib.parse "audioFiles/topics/CustomTopics/Saving_Water"
    /\ PathLib.to_string folder = "audioFiles/topics/CustomTopics/Saving_Water".
Proof.
  destruct (C5_custom_folder Demo.both_keys Demo.calm
              (inr (JObj [("custom_topic", JStr " Saving Water ")]))
              (mkFields EmptyString "Saving Water" (JStr "Hindi") (JStr "coral")
                 (FloatLit "0.7"))
              eq_refl eq_refl ltac:(discriminate))
    as (folder & rest & Ht & Hf & Hs).
  exists folder, rest. split; [exact Ht|]. split; [exact Hf|].
  apply Hs; [reflexivity|discriminate].
Defined.

(** C5 as it is written fails for a custom topic that begins with a slash:
    the folder created for "/srv/audio" is /srv/audio, which is not the
    path audioFiles/topics/CustomTopics//srv/audio and lies outside the
    base path. *)
Lemma C5_counterexample :
  let req := inr (JObj [("custom_topic", JStr "/srv/audio")]) in
  read_fields req
  = ret (mkFields EmptyString "/srv/audio" (JStr "Hindi") (JStr "coral")
           (FloatLit "0.7"))
  /\ Py.mem EmptyString THEMES = false
  /\ trace (generate_podcast Demo.both_keys Demo.calm req)
     = [EMkdir (PathLib.parse "/srv/audio");
        EGenerate "gemini-2.0-flash"
          (prompt (JStr "Hindi") EmptyString "/srv/audio") (FloatLit "0.7");
        ESpeech "gpt-4o-mini-tts" (JStr "coral") "Once upon a time.";
        EStreamToFile "ID3" (PathLib.parse "/srv/audio.mp3")]
  /\ PathLib.to_string (PathLib.parse "/srv/audio") = "/srv/audio"
  /\ PathLib.parse "/srv/audio"
     <> PathLib.parse ("audioFiles/topics/CustomTopics/"
                         ++ Str.replace " " "_" "/srv/audio")
  /\ PathLib.to_string
       (PathLib.parse ("audioFiles/topics/CustomTopics/"
                         ++ Str.replace " " "_" "/srv/audio"))
     = "audioFiles/topics/CustomTopics/srv/audio".
Proof.
  cbv zeta. repeat split. discriminate.
Qed.

(** C6.  The request {topic: "MindMatters", language: "English"} creates
    audioFiles/topics/MindMatters, names its file MindMatters.mp3, and, when
    the script is generated and the speech is written, answers with
    audio_url "/stream-audio/MindMatters/MindMatters.mp3". *)
Theorem C6_mind_matters g w :
  let req := inr (JObj [("topic", JStr "MindMatters"); ("language", JStr "English")]) in
  let f := mkFields "MindMatters" EmptyString (JStr "English") (JStr "coral")
             (FloatLit "0.7") in
  let dir := PathLib.parse "audioFiles/topics/MindMatters" in
  let file := PathLib.parse "audioFiles/topics/MindMatters/MindMatters.mp3" in
  read_fields req = ret f
  /\ (exists rest, trace (generate_podcast g w req) = EMkdir dir :: rest)
  /\ PathLib.to_string dir = "audioFiles/topics/MindMatters"
  /\ filename (topic f) (custom_topic f) = "MindMatters.mp3"
  /\ dir // filename (topic f) (custom_topic f) = file
  /\ forall script audio,
       script_generated w f script ->
       synthesis_succeeds g w f script audio ->
       generate_podcast g w req
       = ([EMkdir dir;
           EGenerate "gemini-2.0-flash"
             (prompt (JStr "English") "MindMatters" EmptyString) (FloatLit "0.7");
           ESpeech "gpt-4o-mini-tts" (JStr "coral") script;
           EStreamToFile audio file],
          inr (mkResponse 200
                 (Json (JObj [("status", JStr "success");
                              ("script", JStr script);
                              ("audio_url",
                               JStr "/stream-audio/MindMatters/MindMatters.mp3")])))).
Proof.
  intros req f dir file.
  assert (Hr : read_fields req = ret f) by reflexivity.
  assert (Ha : accepted f) by (left; discriminate).
  repeat split.
  - rewrite (generate_podcast_trace g w req f Hr).
    destruct (respond_mkdir g w f Ha) as (rest & Ht & _). now exists rest.
  - intros script audio Hg Hs.
    exact (generate_podcast_success g w req f script audio Hr Ha Hg Hs).
Qed.

Lemma C6_mind_matters_witness :
  generate_podcast Demo.both_keys Demo.calm
    (inr (JObj [("topic", JStr "MindMatters"); ("language", JStr "English")]))
  = ([EMkdir (PathLib.parse "audioFiles/topics/MindMatters");
      EGenerate "gemini-2.0-flash"
        (prompt (JStr "English") "MindMatters" EmptyString) (FloatLit "0.7");
      ESpeech "gpt-4o-mini-tts" (JStr "coral") "Once upon a time.";
      EStreamToFile "ID3"
        (PathLib.parse "audioFiles/topics/MindMatters/MindMatters.mp3")],
     inr (mkResponse 200
            (Json (JObj [("status", JStr "success");
                         ("script", JStr "Once upon a time.");
                         ("audio_url",
                          JStr "/stream-audio/MindMatters/MindMatters.mp3")])))).
Proof.
  apply (C6_mind_matters Demo.both_keys Demo.calm).
  - split; reflexivity.
  - exists (OpenAI "sk-1"). repeat split; reflexivity.
Defined.

(** ** POST /generate-podcast: the address of the audio *)

(** C2 (the code departs from it).  For the request
    {custom_topic: "Saving Water"}, when the script is generated and the
    speech is written, the audio goes to
    audioFiles/topics/CustomTopics/Saving_Water/Saving_Water.mp3 while the
    answer carries the address
    /stream-audio/CustomTopics/Saving Water/Saving_Water.mp3: line 110
    inserts the custom topic as typed, where lines 62 and 97 replace its
    spaces. *)
Theorem C2_custom_audio_url_keeps_spaces g w script audio :
  let req := inr (JObj [("custom_topic", JStr "Saving Water")]) in
  let f := mkFields EmptyString "Saving Water" (JStr "Hindi") (JStr "coral")
             (FloatLit "0.7") in
  script_generated w f script ->
  synthesis_succeeds g w f script audio ->
  generate_podcast g w req
  = ([EMkdir (PathLib.parse "audioFiles/topics/CustomTopics/Saving_Water");
      EGenerate "gemini-2.0-flash"
        (prompt (JStr "Hindi") EmptyString "Saving Water") (FloatLit "0.7");
      ESpeech "gpt-4o-mini-tts" (JStr "coral") script;
      EStreamToFile audio
        (PathLib.parse
           "audioFiles/topics/CustomTopics/Saving_Water/Saving_Water.mp3")],
     inr (success_response script
            (JStr "/stream-audio/CustomTopics/Saving Water/Saving_Water.mp3")))
  /\ "/stream-audio/CustomTopics/Saving Water/Saving_Water.mp3"
     <> "/stream-audio/" ++ "CustomTopics/" ++ Str.replace " " "_" "Saving Water"
          ++ "/" ++ "Saving_Water.mp3".
Proof.
  intros req f Hg Hs. split; [|discriminate].
  assert (Hr : read_fields req = ret f) by reflexivity.
  assert (Ha : accepted f) by (right; discriminate).
  exact (generate_podcast_success g w req f script audio Hr Ha Hg Hs).
Qed.

Lemma C2_custom_audio_url_keeps_spaces_witness :
  outcome (generate_podcast Demo.both_keys Demo.calm
             (inr (JObj [("custom_topic", JStr "Saving Water")])))
  = inr (success_response "Once upon a time."
           (JStr "/stream-audio/CustomTopics/Saving Water/Saving_Water.mp3")).
Proof.
  rewrite (proj1 (C2_custom_audio_url_keeps_spaces Demo.both_keys Demo.calm
                    "Once upon a time." "ID3"
                    (conj eq_refl eq_refl)
                    (ex_intro _ (OpenAI "sk-1") (conj eq_refl (conj eq_refl eq_refl))))).
  reflexivity.
Defined.

(** The address of a custom topic sent alone agrees with the folder exactly
    when the custom topic has no space. *)
Lemma custom_audio_url_without_space custom_topic :
  Str.contains " " custom_topic = false ->
  audio_url EmptyString custom_topic
  = "/stream-audio/CustomTopics/" ++ Str.replace " " "_" custom_topic ++ "/"
      ++ filename EmptyString custom_topic.
Proof.
  intros H. unfold audio_url. cbn [Py.truthy Str.is_empty negb].
  enough (E : Str.replace " " "_" custom_topic = custom_topic) by now rewrite E.
  induction custom_topic as [|a s IH]; cbn [Str.replace Str.contains] in *;
    [reflexivity|].
  apply orb_false_iff in H as [Ha Hs]. now rewrite Ha, (IH Hs).
Qed.

(** ** POST /generate-podcast: failures *)

(** The speech client is absent when its key is absent or empty, whatever
    the constructor would do. *)
Lemma module_init_without_key getenv new_client :
  key_set (getenv "OPENAI_API_KEY") = false ->
  exists g,
    module_init getenv new_client = ret g
    /\ openai_client g = None
    /\ OPENAI_API_KEY g = getenv "OPENAI_API_KEY".
Proof.
  intros H. unfold module_init, key_set in *.
  destruct (getenv "OPENAI_API_KEY") as [k|]; [rewrite H|];
    eexists; repeat split.
Qed.

(** C3.  When the fields are read, the request is accepted and the script
    is generated, a missing speech client, a speech call that raises, or a
    write of the audio that raises still gives the answer 200 with status
    "success", the script, and a null audio_url. *)
Theorem C3_synthesis_failure_is_not_fatal g w req f script :
  read_fields req = ret f ->
  accepted f ->
  script_generated w f script ->
  synthesis_fails g w f script ->
  outcome (generate_podcast g w req)
  = inr (mkResponse 200
           (Json (JObj [("status", JStr "success");
                        ("script", JStr script);
                        ("audio_url", JNull)]))).
Proof.
  intros Hr Ha Hg Hs. rewrite (generate_podcast_read g w req f Hr).
  pose proof (respond_no_audio g w f script Ha Hg Hs) as H.
  destruct (respond g w f) as [t r]. unfold outcome in H. cbn [snd] in H.
  subst r. reflexivity.
Qed.

Lemma C3_synthesis_failure_is_not_fatal_witness :
  outcome (generate_podcast Demo.no_speech_key Demo.calm
             (inr (JObj [("topic", JStr "MindMatters")])))
  = inr (mkResponse 200
           (Json (JObj [("status", JStr "success");
                        ("script", JStr "Once upon a time.");
                        ("audio_url", JNull)]))).
Proof.
  apply (C3_synthesis_failure_is_not_fatal Demo.no_speech_key Demo.calm
           (inr (JObj [("topic", JStr "MindMatters")]))
           (mkFields "MindMatters" EmptyString (JStr "Hindi") (JStr "coral")
              (FloatLit "0.7"))).
  - reflexivity.
  - left. discriminate.
  - split; reflexivity.
  - left. reflexivity.
Defined.

(** The body of the outer [try] once the fields are read. *)
Lemma generate_podcast_body_read g w req f :
  read_fields req = ret f ->
  generate_podcast_body g w req = respond g w f.
Proof.
  intros H. unfold generate_podcast_body. rewrite H.
  unfold ret, bind. destruct (respond g w f) as [t r]. reflexivity.
Qed.

Lemma validation_accepted f :
  negb (Py.truthy (topic f)) && negb (Py.truthy (custom_topic f)) = false ->
  accepted f.
Proof.
  unfold accepted, Py.truthy.
  destruct (topic f), (custom_topic f); cbn; intros H;
    try discriminate H; (left; discriminate) || (right; discriminate).
Qed.

(** The exceptions that escape the body of the outer [try]: those of
    reading the fields, of creating the folder, of calling the model and of
    reading the text of its response. *)
Lemma body_raises_cases g w req e :
  outcome (generate_podcast_body g w req) = inl e <->
  read_fields req = raise e
  \/ exists f,
       read_fields req = ret f /\ accepted f
       /\ (mkdir w (audio_folder (topic f) (custom_topic f)) = Some e
           \/ (mkdir w (audio_folder (topic f) (custom_topic f)) = None
               /\ (generate_content w "gemini-2.0-flash"
                      (prompt (language f) (topic f) (custom_topic f))
                      (temperature f) = inl e
                   \/ generate_content w "gemini-2.0-flash"
                        (prompt (language f) (topic f) (custom_topic f))
                        (temperature f) = inr (inl e)))).
Proof.
  split.
  - destruct (read_fields_cases req) as [[f Hr]|[e0 Hr]].
    + rewrite (generate_podcast_body_read g w req f Hr). intros H. right.
      exists f. split; [exact Hr|]. revert H. unfold respond.
      destruct (negb (Py.truthy (topic f)) && negb (Py.truthy (custom_topic f)))
        eqn:Hv; [discriminate|].
      split; [exact (validation_accepted f Hv)|]. revert H.
      unfold synthesize. unfold_monad.
      repeat case_step; unfold_monad; intros H; try discriminate H;
        injection H as <-; auto.
    + unfold generate_podcast_body. rewrite Hr. cbn. intros [= <-]. now left.
  - intros [Hr|(f & Hr & Ha & H)].
    + unfold generate_podcast_body. now rewrite Hr.
    + rewrite (generate_podcast_body_read g w req f Hr). unfold respond.
      rewrite (accepted_validation f Ha). unfold_monad.
      destruct H as [Hm|[Hm [Hg|Hg]]]; rewrite Hm; unfold_monad;
        try reflexivity; rewrite Hg; reflexivity.
Qed.

(** An exception that escapes the body of the outer [try] is answered 500
    with its own text; it is the last event of the run, and the run has not
    reached the speech step. *)
Lemma escaping_exception_becomes_500 g w req e :
  outcome (generate_podcast_body g w req) = inl e ->
  outcome (generate_podcast g w req)
  = inr (mkResponse 500
           (Json (JObj [("status", JStr "error"); ("message", JStr (exn_str e))])))
  /\ exists pre,
       trace (generate_podcast g w req) = (pre ++ [ERaise e])%list
       /\ forall ev, In ev pre -> is_speech ev = false.
Proof.
  intros H. split.
  - unfold generate_podcast.
    destruct (generate_podcast_body g w req) as [t [e'|r]];
      cbn in H; [|discriminate H].
    injection H as ->. reflexivity.
  - apply body_raises_cases in H.
    destruct H as [Hr|(f & Hr & Ha & H)].
    + rewrite (generate_podcast_unread g w req e Hr). exists [].
      split; [reflexivity|]. intros ev [].
    + rewrite (generate_podcast_trace g w req f Hr). unfold respond.
      rewrite (accepted_validation f Ha). unfold_monad.
      destruct H as [Hm|[Hm [Hg|Hg]]]; rewrite Hm; unfold_monad;
        [|rewrite Hg; unfold_monad..];
        match goal with
        | |- exists pre, ?l = _ /\ _ => exists (removelast l)
        end;
        (split; [reflexivity|]);
        cbn [removelast In]; intros ev Hin;
        repeat (destruct Hin as [<-|Hin]; [reflexivity|]); destruct Hin.
Qed.

(** A body that is read gives the fields it is read as. *)
Lemma reads_as_read items f :
  reads_as items f -> read_fields (inr (JObj items)) = ret f.
Proof.
  intros (t & c & Ht & Hc & Hf & Et & Ec & El & Ev).
  unfold read_fields, data_get, strip. unfold_monad.
  rewrite Ht, Hc. unfold_monad. rewrite Hf.
  destruct f as [ft fc fl fv fte]. cbn [topic custom_topic language voice temperature] in *.
  subst. reflexivity.
Qed.

(** Each failure before the speech step makes the reading of the fields or
    the rest of the body raise that exception. *)
Lemma fails_before_speech_escapes g w req e :
  fails_before_speech w req e ->
  generate_podcast_body g w req
  = (trace (generate_podcast_body g w req), inl e)
  /\ forall ev, In ev (trace (generate_podcast_body g w req)) -> is_speech ev = false.
Proof.
  assert (Hread : forall e0, read_fields req = raise e0 ->
            generate_podcast_body g w req
            = (trace (generate_podcast_body g w req), inl e0)
            /\ forall ev, In ev (trace (generate_podcast_body g w req)) ->
                 is_speech ev = false).
  { intros e0 Hr. unfold generate_podcast_body. rewrite Hr. split; [reflexivity|].
    cbn. intros ev [<-|[]]. reflexivity. }
  assert (Hresp : forall items f,
            reads_as items f -> accepted f ->
            generate_podcast_body g w (inr (JObj items)) = respond g w f).
  { intros items f Hr _. apply generate_podcast_body_read. now apply reads_as_read. }
  intros H. destruct H as
      [e|data Hd|items v Hv Hn|items t v Ht Hv Hn|items t c e Ht Hc Hf
       |items f e Hr Ha Hm|items f e Hr Ha Hm Hg|items f e Hr Ha Hm Hg].
  - apply Hread. reflexivity.
  - apply Hread. destruct data; try reflexivity. exfalso. now apply (Hd items).
  - apply Hread. unfold read_fields, data_get, strip. unfold_monad. rewrite Hv.
    destruct v; try reflexivity. exfalso. now apply (Hn s).
  - apply Hread. unfold read_fields, data_get, strip. unfold_monad.
    rewrite Ht. unfold_monad. rewrite Hv.
    destruct v; try reflexivity. exfalso. now apply (Hn s).
  - apply Hread. unfold read_fields, data_get, strip. unfold_monad.
    rewrite Ht, Hc. unfold_monad. rewrite Hf. reflexivity.
  - rewrite (Hresp items f Hr Ha). unfold respond.
    rewrite (accepted_validation f Ha). unfold_monad. rewrite Hm. unfold_monad.
    split; [reflexivity|]. cbn [In]. intros ev [<-|[<-|[]]]; reflexivity.
  - rewrite (Hresp items f Hr Ha). unfold respond.
    rewrite (accepted_validation f Ha). unfold_monad. rewrite Hm. unfold_monad.
    rewrite Hg. unfold_monad.
    split; [reflexivity|]. cbn [In]. intros ev [<-|[<-|[<-|[]]]]; reflexivity.
  - rewrite (Hresp items f Hr Ha). unfold respond.
    rewrite (accepted_validation f Ha). unfold_monad. rewrite Hm. unfold_monad.
    rewrite Hg. unfold_monad.
    split; [reflexivity|]. cbn [In]. intros ev [<-|[<-|[<-|[]]]]; reflexivity.
Qed.

(** Conversely, an exception escapes the body only through one of these
    failures. *)
Lemma escapes_fails_before_speech g w req e :
  outcome (generate_podcast_body g w req) = inl e ->
  fails_before_speech w req e.
Proof.
  intros H. apply body_raises_cases in H.
  destruct req as [e0|data].
  - destruct H as [Hr|(f & Hr & _)]; [|discriminate Hr].
    injection Hr as _ <-. constructor.
  - destruct data;
      try (destruct H as [Hr|(f & Hr & _)]; [|discriminate Hr];
           injection Hr as _ <-; apply body_not_object; discriminate).
    revert H. unfold read_fields, data_get, strip. unfold_monad.
    destruct (Py.get items "topic" (JStr EmptyString)) eqn:Ht; unfold_monad;
      try (intros [Hr|(f & Hr & _)]; [|discriminate Hr];
           injection Hr as _ <-;
           apply (topic_not_string w items _ Ht); discriminate).
    destruct (Py.get items "custom_topic" (JStr EmptyString)) eqn:Hc; unfold_monad;
      try (intros [Hr|(f & Hr & _)]; [|discriminate Hr];
           injection Hr as _ <-;
           apply (custom_topic_not_string w items _ _ Ht Hc); discriminate).
    destruct (Py.float (Py.get items "temperature" (JFloat "0.7"))) as [e0|x] eqn:Hf;
      unfold_monad.
    + intros [Hr|(f & Hr & _)]; [|discriminate Hr].
      injection Hr as _ <-. exact (temperature_not_float w items _ _ _ Ht Hc Hf).
    + intros [Hr|(f & Hr & Ha & H)]; [discriminate Hr|].
      injection Hr as <-.
      assert (Hrd : reads_as items
                (mkFields (Str.strip s) (Str.strip s0)
                   (Py.get items "language" (JStr "Hindi"))
                   (Py.get items "voice" (JStr "coral")) x)).
      { exists s, s0. repeat split; assumption. }
      destruct H as [Hm|[Hm [Hg|Hg]]].
      * exact (folder_not_created w items _ e Hrd Ha Hm).
      * exact (model_call_fails w items _ e Hrd Ha Hm Hg).
      * exact (model_text_fails w items _ e Hrd Ha Hm Hg).
Qed.

(** C7 (as amended).  When a step of the processing that comes before the
    speech step raises an exception (reading the JSON body or one of its
    fields, trimming a topic, turning the temperature into a float,
    creating the folder, calling the model or reading the text of its
    response), the handler answers 500 with status "error" and the
    exception's own text as message, and the speech service is never
    called. *)
Theorem C7_exception_becomes_500 g w req e :
  fails_before_speech w req e ->
  outcome (generate_podcast g w req)
  = inr (mkResponse 500
           (Json (JObj [("status", JStr "error"); ("message", JStr (exn_str e))])))
  /\ In (ERaise e) (trace (generate_podcast g w req))
  /\ forall ev, In ev (trace (generate_podcast g w req)) -> is_speech ev = false.
Proof.
  intros H. destruct (fails_before_speech_escapes g w req e H) as (Hb & Hs).
  destruct (escaping_exception_becomes_500 g w req e) as (Ho & pre & Ht & Hp).
  { now rewrite Hb. }
  split; [exact Ho|]. split.
  - rewrite Ht. apply in_or_app. right. now left.
  - intros ev. rewrite Ht. intros Hin. apply in_app_or in Hin as [Hin|[<-|[]]].
    + now apply Hp.
    + reflexivity.
Qed.

Lemma C7_exception_becomes_500_witness :
  outcome (generate_podcast Demo.both_keys
             (mkWorld (fun _ => Some (Exn "PermissionError"
                                        "[Errno 13] Permission denied: 'audioFiles'"))
                (fun _ _ _ => inr (inr "Once upon a time."))
                (fun _ _ _ _ => inr "ID3") (fun _ _ => None) (fun _ => false))
             (inr (JObj [("topic", JStr "MindMatters")])))
  = inr (mkResponse 500
           (Json (JObj [("status", JStr "error");
                        ("message",
                         JStr "[Errno 13] Permission denied: 'audioFiles'")]))).
Proof.
  apply (C7_exception_becomes_500 Demo.both_keys _
           (inr (JObj [("topic", JStr "MindMatters")]))
           (Exn "PermissionError" "[Errno 13] Permission denied: 'audioFiles'")).
  apply (folder_not_created _ [("topic", JStr "MindMatters")]
           (mkFields "MindMatters" EmptyString (JStr "Hindi") (JStr "coral")
              (FloatLit "0.7"))).
  - exists "MindMatters", EmptyString. repeat split; reflexivity.
  - left. discriminate.
  - reflexivity.
Defined.

(** C7 as it is written fails: an exception raised while the audio is
    written is raised by the processing, and the answer is 200. *)
Lemma C7_counterexample :
  let req := inr (JObj [("topic", JStr "MindMatters")]) in
  let e := Exn "OSError" "[Errno 28] No space left on device" in
  stream_to_file Demo.disk_full "ID3"
    (PathLib.parse "audioFiles/topics/MindMatters/MindMatters.mp3") = Some e
  /\ In (ERaise e) (trace (generate_podcast Demo.both_keys Demo.disk_full req))
  /\ outcome (generate_podcast Demo.both_keys Demo.disk_full req)
     = inr (mkResponse 200
              (Json (JObj [("status", JStr "success");
                           ("script", JStr "Once upon a time.");
                           ("audio_url", JNull)])))
  /\ outcome (generate_podcast Demo.both_keys Demo.disk_full req)
     <> inr (error_response (exn_str e) 500).
Proof.
  cbv zeta. split; [reflexivity|]. split; [|split].
  - vm_compute. tauto.
  - reflexivity.
  - discriminate.
Qed.

(** Conversely, every exception raised in a run that has not reached the
    speech step is answered in this way. *)
Lemma raised_before_speech_becomes_500 g w req e :
  In (ERaise e) (trace (generate_podcast g w req)) ->
  (forall ev, In ev (trace (generate_podcast g w req)) -> is_speech ev = false) ->
  outcome (generate_podcast g w req)
  = inr (mkResponse 500
           (Json (JObj [("status", JStr "error"); ("message", JStr (exn_str e))]))).
Proof.
  destruct (read_fields_cases req) as [[f Hr]|[e0 Hr]].
  - rewrite (generate_podcast_read g w req f Hr).
    unfold respond, synthesize. unfold_monad.
    repeat case_step; unfold_monad; cbn [In]; intros Hin Hsp;
      repeat (destruct Hin as [Hin|Hin]; try discriminate Hin);
      try contradiction;
      try (injection Hin as <-; reflexivity);
      exfalso;
      match goal with
      | |- context [ESpeech ?m ?v ?s] =>
          specialize (Hsp (ESpeech m v s)); cbn [In is_speech] in Hsp
      | H : context [ESpeech ?m ?v ?s] |- _ =>
          specialize (H (ESpeech m v s)); cbn [In is_speech] in H
      end;
      (assert (true = false) as X by (apply Hsp; tauto)); discriminate X.
  - rewrite (generate_podcast_unread g w req e0 Hr). cbn [trace fst In].
    intros [[= <-]|[]] _. reflexivity.
Qed.

(** An exception of the speech step does not escape the body: when the
    audio cannot be written, the exception is caught at line 111 and the
    answer is 200 with a null audio_url. *)
Lemma speech_step_exception_is_caught :
  let req := inr (JObj [("topic", JStr "MindMatters")]) in
  let e := Exn "OSError" "[Errno 28] No space left on device" in
  generate_podcast_body Demo.both_keys Demo.disk_full req
  = ([EMkdir (PathLib.parse "audioFiles/topics/MindMatters");
      EGenerate "gemini-2.0-flash"
        (prompt (JStr "Hindi") "MindMatters" EmptyString) (FloatLit "0.7");
      ESpeech "gpt-4o-mini-tts" (JStr "coral") "Once upon a time.";
      EStreamToFile "ID3"
        (PathLib.parse "audioFiles/topics/MindMatters/MindMatters.mp3");
      ERaise e;
      EPrint "Warning: OpenAI TTS failed: [Errno 28] No space left on device"],
     inr (success_response "Once upon a time." JNull)).
Proof. reflexivity. Qed.




(** A topic that begins with a slash makes the file name an absolute path:
    the audio of the topic "/srv/x" goes to /srv/x.mp3. *)
Lemma unknown_topic_absolute :
  let req := inr (JObj [("topic", JStr "/srv/x")]) in
  generate_podcast Demo.both_keys Demo.calm req
  = ([EMkdir (PathLib.parse "audioFiles/topics/CustomTopics");
      EGenerate "gemini-2.0-flash"
        (prompt (JStr "Hindi") "/srv/x" EmptyString) (FloatLit "0.7");
      ESpeech "gpt-4o-mini-tts" (JStr "coral") "Once upon a time.";
      EStreamToFile "ID3" (PathLib.parse "/srv/x.mp3")],
     inr (success_response "Once upon a time."
            (JStr "/stream-audio//srv/x//srv/x.mp3")))
  /\ PathLib.to_string (PathLib.parse "/srv/x.mp3") = "/srv/x.mp3".
Proof. split; reflexivity. Qed.

(** * Further properties of the handlers *)

(** ** Trimming and validation *)

Lemma lstrip_empty s : Str.lstrip s = EmptyString <-> blank s = true.
Proof.
  induction s as [|c s IH]; cbn [Str.lstrip blank]; [tauto|].
  destruct (Str.isspace c); cbn [andb]; [exact IH|].
  split; discriminate.
Qed.

Lemma rstrip_empty s : Str.rstrip s = EmptyString <-> blank s = true.
Proof.
  induction s as [|c s IH]; cbn [Str.rstrip blank]; [tauto|].
  destruct (Str.isspace c); cbn [andb].
  - destruct (Str.rstrip s) eqn:E; cbn [Str.is_empty].
    + split; [intros _; now apply IH|reflexivity].
    + split; [discriminate|]. intros H. apply IH in H. discriminate H.
  - split; discriminate.
Qed.

Lemma lstrip_head s :
  match Str.lstrip s with
  | EmptyString => True
  | String c _ => Str.isspace c = false
  end.
Proof.
  induction s as [|c s IH]; cbn [Str.lstrip]; [exact I|].
  destruct (Str.isspace c) eqn:E; [exact IH|exact E].
Qed.

(** A string trims to nothing exactly when it is all white space. *)
Lemma strip_empty s : Str.strip s = EmptyString <-> blank s = true.
Proof.
  unfold Str.strip. rewrite rstrip_empty, <- (lstrip_empty s).
  pose proof (lstrip_head s) as H.
  destruct (Str.lstrip s) as [|c r]; cbn [blank]; [tauto|].
  rewrite H. cbn [andb]. split; discriminate.
Qed.

Section Answers.

Variables (g : Globals) (w : World).

(** An accepted request is answered 200 or 500, never 400. *)
Lemma accepted_answer f :
  accepted f ->
  (exists e,
     outcome (respond g w f) = inl e)
  \/ (exists script url,
        outcome (respond g w f) = inr (success_response script url)
        /\ script_generated w f script
        /\ ((url = JNull /\ forall audio, ~ synthesis_succeeds g w f script audio)
            \/ (url = JStr (audio_url (topic f) (custom_topic f))
                /\ exists audio, synthesis_succeeds g w f script audio))).
Proof.
  intros Ha. unfold respond. rewrite (accepted_validation f Ha).
  unfold script_generated, synthesis_succeeds, synthesize. unfold_monad.
  destruct (mkdir w (audio_folder (topic f) (custom_topic f))) as [e|] eqn:Hm;
    unfold_monad; [left; eexists; reflexivity|].
  destruct (generate_content w "gemini-2.0-flash"
              (prompt (language f) (topic f) (custom_topic f)) (temperature f))
    as [e|[e|script]] eqn:Hg; unfold_monad;
    [left; eexists; reflexivity..|].
  right. exists script.
  destruct (openai_client g) as [c|] eqn:Hc; unfold_monad.
  - destruct (speech_create w c "gpt-4o-mini-tts" (voice f) script)
      as [e|audio] eqn:Hs; unfold_monad.
    + eexists. split; [reflexivity|]. split; [auto|]. left. split; [reflexivity|].
      intros audio (c' & Hc' & Hs' & _). congruence.
    + destruct (stream_to_file w audio (speech_file_path (topic f) (custom_topic f)))
        as [e|] eqn:Hw; unfold_monad.
      * eexists. split; [reflexivity|]. split; [auto|]. left. split; [reflexivity|].
        intros audio' (c' & Hc' & Hs' & Hw'). congruence.
      * eexists. split; [reflexivity|]. split; [auto|]. right. split; [reflexivity|].
        exists audio, c. auto.
  - eexists. split; [reflexivity|]. split; [auto|]. left. split; [reflexivity|].
    intros audio (c' & Hc' & _). congruence.
Qed.

End Answers.

Section Classification.

Variables (g : Globals) (w : World).

Lemma generate_podcast_outcome req f :
  read_fields req = ret f ->
  outcome (generate_podcast g w req)
  = match outcome (respond g w f) with
    | inl e => inr (error_response (exn_str e) 500)
    | inr r => inr r
    end.
Proof.
  intros H. rewrite (generate_podcast_read g w req f H).
  destruct (respond g w f) as [t [e|r]]; reflexivity.
Qed.

Lemma accepted_or_rejected f :
  accepted f \/ (topic f = EmptyString /\ custom_topic f = EmptyString).
Proof.
  unfold accepted. destruct (topic f), (custom_topic f);
    (right; split; reflexivity) || (left; (left; discriminate) || (right; discriminate)).
Qed.

(** X1.  Every request is answered, in exactly one of three ways: 400 with
    the fixed message, when the fields are read and both topics are empty;
    500 with the text of the exception that escaped the body; 200 with
    status "success" and the script, when the fields are read, the request
    is accepted, the folder is created and the model returns that script. *)
Theorem answer_classification req :
  exists r,
    outcome (generate_podcast g w req) = inr r
    /\ ((r = error_response "Please provide a topic or custom topic" 400
         /\ exists f,
              read_fields req = ret f
              /\ topic f = EmptyString /\ custom_topic f = EmptyString)
        \/ (exists e,
              r = error_response (exn_str e) 500
              /\ outcome (generate_podcast_body g w req) = inl e)
        \/ (exists f script url,
              r = success_response script url
              /\ read_fields req = ret f /\ accepted f
              /\ script_generated w f script)).
Proof.
  destruct (read_fields_cases req) as [[f Hr]|[e Hr]].
  - rewrite (generate_podcast_outcome req f Hr).
    rewrite (generate_podcast_body_read g w req f Hr).
    destruct (accepted_or_rejected f) as [Ha|[Ht Hc]].
    + destruct (accepted_answer g w f Ha) as [[e He]|(script & url & Ho & Hg & _)].
      * rewrite He. eexists. split; [reflexivity|]. right. left.
        exists e. split; reflexivity.
      * rewrite Ho. eexists. split; [reflexivity|]. right. right.
        exists f, script, url. auto.
    + rewrite (respond_rejected g w f Ht Hc). eexists. split; [reflexivity|].
      left. split; [reflexivity|]. exists f. auto.
  - rewrite (generate_podcast_unread g w req e Hr). eexists.
    split; [reflexivity|]. right. left. exists e. split; [reflexivity|].
    unfold generate_podcast_body. now rewrite Hr.
Qed.

(** X2.  The address of the audio is in the answer exactly when the whole
    chain succeeded: the fields are read, the request is accepted, the
    folder is created, the model returns the script, the speech client
    exists and returns the audio, and the audio is written. *)
Theorem audio_url_iff_written req script u :
  outcome (generate_podcast g w req) = inr (success_response script (JStr u))
  <-> exists f audio,
        read_fields req = ret f /\ accepted f
        /\ script_generated w f script
        /\ synthesis_succeeds g w f script audio
        /\ u = audio_url (topic f) (custom_topic f).
Proof.
  split.
  - destruct (read_fields_cases req) as [[f Hr]|[e Hr]].
    + rewrite (generate_podcast_outcome req f Hr).
      destruct (accepted_or_rejected f) as [Ha|[Ht Hc]].
      * destruct (accepted_answer g w f Ha)
          as [[e He]|(s & url & Ho & Hg & [[-> _]|[-> [audio Hs]]])];
          [rewrite He|rewrite Ho..]; intros E;
          try discriminate E.
        injection E as <- <-. exists f, audio. auto.
      * rewrite (respond_rejected g w f Ht Hc). intros [= E].
    + rewrite (generate_podcast_unread g w req e Hr). intros [= E].
  - intros (f & audio & Hr & Ha & Hg & Hs & ->).
    now rewrite (generate_podcast_success g w req f script audio Hr Ha Hg Hs).
Qed.

End Classification.

(** ** What the handler does to the outside *)

Section OutsideCalls.

Variables (g : Globals) (w : World).

(** X3.  The outside calls of a run are an initial part of: create the
    folder, call the model, call the speech service, write the audio.  The
    model is called only after the folder was created, the speech service
    only with the script the model returned, and the audio is written only
    after the speech service returned it.  The folder is the one of lines
    57 to 62 and the audio goes to that folder joined with the file name of
    line 97, a path that lies under the folder whenever the file name does
    not begin with a slash. *)
Theorem outside_calls_in_order req :
  exists folder prompt temperature voice script audio file n,
    filter is_outside (trace (generate_podcast g w req))
    = firstn n (full_run folder prompt temperature voice script audio file)
    /\ (2 <= n -> mkdir w folder = None)
    /\ (3 <= n ->
        generate_content w "gemini-2.0-flash" prompt temperature = inr (inr script))
    /\ (4 <= n ->
        exists client,
          openai_client g = Some client
          /\ speech_create w client "gpt-4o-mini-tts" voice script = inr audio)
    /\ (1 <= n ->
        exists f,
          read_fields req = ret f /\ accepted f
          /\ folder = audio_folder (topic f) (custom_topic f)
          /\ file = folder // filename (topic f) (custom_topic f)
          /\ (Str.starts_with "/" (filename (topic f) (custom_topic f)) = false ->
              root file = root folder
              /\ exists more, parts file = (parts folder ++ more)%list)).
Proof.
  destruct (read_fields_cases req) as [[f Hr]|[e Hr]].
  - rewrite (generate_podcast_trace g w req f Hr).
    pose (folder := audio_folder (topic f) (custom_topic f)).
    pose (file := speech_file_path (topic f) (custom_topic f)).
    pose (pr := prompt (language f) (topic f) (custom_topic f)).
    assert (leaf : forall script audio n calls,
      calls = firstn n (full_run folder pr (temperature f) (voice f) script audio file) ->
      (2 <= n -> mkdir w folder = None) ->
      (3 <= n -> generate_content w "gemini-2.0-flash" pr (temperature f)
                 = inr (inr script)) ->
      (4 <= n -> exists client,
           openai_client g = Some client
           /\ speech_create w client "gpt-4o-mini-tts" (voice f) script = inr audio) ->
      (1 <= n -> accepted f) ->
      exists folder prompt temperature voice script audio file n,
        calls = firstn n (full_run folder prompt temperature voice script audio file)
        /\ (2 <= n -> mkdir w folder = None)
        /\ (3 <= n ->
            generate_content w "gemini-2.0-flash" prompt temperature
            = inr (inr script))
        /\ (4 <= n ->
            exists client,
              openai_client g = Some client
              /\ speech_create w client "gpt-4o-mini-tts" voice script = inr audio)
        /\ (1 <= n ->
            exists f,
              read_fields req = ret f /\ accepted f
              /\ folder = audio_folder (topic f) (custom_topic f)
              /\ file = folder // filename (topic f) (custom_topic f)
              /\ (Str.starts_with "/" (filename (topic f) (custom_topic f)) = false ->
                  root file = root folder
                  /\ exists more, parts file = (parts folder ++ more)%list))).
    { intros script audio n calls H1 H2 H3 H4 H5.
      exists folder, pr, (temperature f), (voice f), script, audio, file, n.
      split; [exact H1|]. split; [exact H2|]. split; [exact H3|].
      split; [exact H4|]. intros Hn. exists f.
      split; [exact Hr|]. split; [exact (H5 Hn)|].
      split; [reflexivity|]. split; [reflexivity|]. intros Hs.
      subst file folder. unfold speech_file_path, PathLib.join,
        PathLib.parse, PathLib.splitroot. cbn [root parts]. rewrite Hs.
      cbn [Str.is_empty root parts]. split; [reflexivity|].
      eexists. reflexivity. }
    destruct (accepted_or_rejected f) as [Ha|[Ht Hc]].
    + unfold respond. rewrite (accepted_validation f Ha).
      unfold synthesize. unfold_monad. fold folder pr file.
      destruct (mkdir w folder) as [e|] eqn:Hm; unfold_monad.
      { apply (leaf EmptyString EmptyString 1); [reflexivity|lia..|auto]. }
      destruct (generate_content w "gemini-2.0-flash" pr (temperature f))
        as [e|[e|script]] eqn:Hg; unfold_monad.
      { apply (leaf EmptyString EmptyString 2); [reflexivity|auto|lia..|auto]. }
      { apply (leaf EmptyString EmptyString 2); [reflexivity|auto|lia..|auto]. }
      destruct (openai_client g) as [c|] eqn:Hc; unfold_monad.
      * destruct (speech_create w c "gpt-4o-mini-tts" (voice f) script)
          as [e|audio] eqn:Hs; unfold_monad.
        { apply (leaf script EmptyString 3); [reflexivity|auto|auto|lia|auto]. }
        destruct (stream_to_file w audio file); unfold_monad;
          apply (leaf script audio 4); try reflexivity; auto;
          intros _; exists c; auto.
      * apply (leaf script EmptyString 2); [reflexivity|auto|lia..|auto].
    + rewrite (respond_rejected g w f Ht Hc).
      apply (leaf EmptyString EmptyString 0); [reflexivity|lia..].
  - rewrite (generate_podcast_unread g w req e Hr).
    exists BASE_AUDIO_PATH, EmptyString, (FloatLit EmptyString), JNull,
      EmptyString, EmptyString, BASE_AUDIO_PATH, 0.
    split; [reflexivity|]. repeat split; lia.
Qed.

(** X4.  Without a speech client the handler never calls the speech service
    and never writes a file, and no answer carries an address. *)
Theorem no_client_no_speech req :
  openai_client g = None ->
  (forall ev, In ev (trace (generate_podcast g w req)) ->
     match ev with
     | ESpeech _ _ _ | EStreamToFile _ _ => False
     | _ => True
     end)
  /\ (forall script url,
        outcome (generate_podcast g w req) = inr (success_response script url) ->
        url = JNull).
Proof.
  intros Hc. split.
  - destruct (read_fields_cases req) as [[f Hr]|[e Hr]].
    + rewrite (generate_podcast_trace g w req f Hr).
      unfold respond, synthesize. rewrite Hc. unfold_monad.
      repeat case_step; unfold_monad; cbn [In]; intros ev Hin;
        repeat (destruct Hin as [<-|Hin]; [exact I|]); destruct Hin.
    + rewrite (generate_podcast_unread g w req e Hr). cbn [trace fst In].
      intros ev [<-|[]]. exact I.
  - intros script url H.
    destruct url; try reflexivity; exfalso.
    all: destruct (read_fields_cases req) as [[f Hr]|[e Hr]];
      [|rewrite (generate_podcast_unread g w req e Hr) in H; discriminate H].
    all: rewrite (generate_podcast_read g w req f Hr) in H;
      revert H; unfold respond, synthesize; rewrite Hc; unfold_monad;
      repeat case_step; unfold_monad; intros H; discriminate H.
Qed.

End OutsideCalls.

Lemma no_client_no_speech_witness :
  exists url,
    outcome (generate_podcast Demo.no_speech_key Demo.calm
               (inr (JObj [("topic", JStr "MindMatters")])))
    = inr (success_response "Once upon a time." url)
    /\ url = JNull.
Proof.
  exists JNull. split; [reflexivity|].
  apply (proj2 (no_client_no_speech Demo.no_speech_key Demo.calm
                  (inr (JObj [("topic", JStr "MindMatters")])) eq_refl)
           "Once upon a time.").
  reflexivity.
Defined.

(** ** Topics, folders and addresses *)

Section Topics.

Variables (g : Globals) (w : World).

Lemma theme_filename topic custom_topic description :
  Py.lookup topic THEMES = Some description ->
  filename topic custom_topic = Str.replace " " "_" topic ++ ".mp3"
  /\ audio_url topic custom_topic
     = "/stream-audio/" ++ topic ++ "/" ++ Str.replace " " "_" topic ++ ".mp3".
Proof.
  intros H. destruct (theme_folder _ _ H) as (Hne & _).
  unfold audio_url, filename, Py.or_, Py.truthy.
  destruct topic; [congruence|]. split; reflexivity.
Qed.

(** The name of a theme has no space, so that it is its own file name. *)
Lemma theme_name_plain topic description :
  Py.lookup topic THEMES = Some description ->
  Str.replace " " "_" topic = topic /\ Str.contains "/" topic = false.
Proof.
  intros H. pose proof (lookup_In _ _ _ H) as Hin. cbn [In THEMES] in Hin.
  repeat (destruct Hin as [[= <- <-]|Hin]; [split; reflexivity|]).
  destruct Hin.
Qed.

Lemma theme_respond_ignores_custom_topic f f' description :
  Py.lookup (topic f) THEMES = Some description ->
  topic f' = topic f ->
  language f' = language f ->
  voice f' = voice f ->
  temperature f' = temperature f ->
  respond g w f' = respond g w f.
Proof.
  intros Hl Ht Hla Hv Hte.
  destruct (theme_folder _ _ Hl) as (_ & Hf & _).
  destruct (theme_filename (topic f) (custom_topic f) _ Hl) as (Hn & Hu).
  destruct (theme_filename (topic f) (custom_topic f') _ Hl) as (Hn' & Hu').
  pose proof (theme_prompt (language f) (topic f) (custom_topic f) _ Hl) as Hp.
  pose proof (theme_prompt (language f) (topic f) (custom_topic f') _ Hl) as Hp'.
  assert (Hval : forall c,
             negb (Py.truthy (topic f)) && negb (Py.truthy c) = false).
  { intros c. destruct (theme_folder _ _ Hl) as (Hne & _).
    unfold Py.truthy. destruct (topic f); [congruence|reflexivity]. }
  unfold respond, synthesize, speech_file_path.
  rewrite Ht, Hla, Hv, Hte, !Hval, !Hf, Hn, Hn', Hu, Hu', Hp, Hp'.
  reflexivity.
Qed.

(** X5.  When the trimmed topic is a registered theme, the value of a
    custom topic that is a string (or is absent) plays no part: two bodies
    with the same topic, language, voice and temperature, whose custom
    topics are any two strings, have the same run and the same answer,
    whether the temperature can be turned into a float or not. *)
Theorem theme_ignores_custom_topic items items' t c c' description :
  Py.get items "topic" (JStr EmptyString) = JStr t ->
  Py.get items' "topic" (JStr EmptyString) = JStr t ->
  Py.lookup (Str.strip t) THEMES = Some description ->
  Py.get items "custom_topic" (JStr EmptyString) = JStr c ->
  Py.get items' "custom_topic" (JStr EmptyString) = JStr c' ->
  Py.get items' "language" (JStr "Hindi") = Py.get items "language" (JStr "Hindi") ->
  Py.get items' "voice" (JStr "coral") = Py.get items "voice" (JStr "coral") ->
  Py.get items' "temperature" (JFloat "0.7")
  = Py.get items "temperature" (JFloat "0.7") ->
  generate_podcast g w (inr (JObj items')) = generate_podcast g w (inr (JObj items)).
Proof.
  intros Ht Ht' Hl Hc Hc' Hla Hv Hte.
  destruct (Py.float (Py.get items "temperature" (JFloat "0.7"))) as [e|x] eqn:Hf.
  - assert (Hr : forall its cc,
               Py.get its "topic" (JStr EmptyString) = JStr t ->
               Py.get its "custom_topic" (JStr EmptyString) = JStr cc ->
               Py.get its "temperature" (JFloat "0.7")
               = Py.get items "temperature" (JFloat "0.7") ->
               read_fields (inr (JObj its)) = raise e).
    { intros its cc H1 H2 H3. unfold read_fields, data_get, strip. unfold_monad.
      rewrite H1, H2. unfold_monad. rewrite H3, Hf. reflexivity. }
    rewrite (generate_podcast_unread g w _ e (Hr items c Ht Hc eq_refl)).
    rewrite (generate_podcast_unread g w _ e (Hr items' c' Ht' Hc' Hte)).
    reflexivity.
  - assert (Hr : forall its cc,
               Py.get its "topic" (JStr EmptyString) = JStr t ->
               Py.get its "custom_topic" (JStr EmptyString) = JStr cc ->
               Py.get its "temperature" (JFloat "0.7")
               = Py.get items "temperature" (JFloat "0.7") ->
               read_fields (inr (JObj its))
               = ret (mkFields (Str.strip t) (Str.strip cc)
                        (Py.get its "language" (JStr "Hindi"))
                        (Py.get its "voice" (JStr "coral")) x)).
    { intros its cc H1 H2 H3. unfold read_fields, data_get, strip. unfold_monad.
      rewrite H1, H2. unfold_monad. rewrite H3, Hf. reflexivity. }
    rewrite (generate_podcast_read g w _ _ (Hr items c Ht Hc eq_refl)).
    rewrite (generate_podcast_read g w _ _ (Hr items' c' Ht' Hc' Hte)).
    f_equal.
    apply (theme_respond_ignores_custom_topic _ _ description);
      cbn [topic language voice temperature]; auto.
Qed.

(** X6.  For a registered theme the address in the answer leads back to the
    audio: its two segments are the theme and <theme>.mp3, and
    [download_audio] called with them looks up the very path the audio was
    written to, and serves it as audio/mpeg when it exists. *)
Theorem theme_address_serves_written_file req f description script audio :
  read_fields req = ret f ->
  Py.lookup (topic f) THEMES = Some description ->
  script_generated w f script ->
  synthesis_succeeds g w f script audio ->
  let name := topic f ++ ".mp3" in
  let written := PathLib.parse ("audioFiles/topics/" ++ topic f ++ "/" ++ name) in
  outcome (generate_podcast g w req)
  = inr (success_response script
           (JStr ("/stream-audio/" ++ topic f ++ "/" ++ name)))
  /\ In (EStreamToFile audio written) (trace (generate_podcast g w req))
  /\ forall w',
       exists_ w' written = true ->
       download_audio w' (topic f) name
       = ret (mkResponse 200 (File written "audio/mpeg")).
Proof.
  intros Hr Hl Hg Hs name written.
  destruct (theme_folder _ _ Hl) as (Hne & Hf & _).
  destruct (theme_filename (topic f) (custom_topic f) _ Hl) as (Hn & Hu).
  destruct (theme_name_plain _ _ Hl) as (Hrep & Hplain).
  rewrite Hrep in Hn, Hu. fold name in Hn, Hu.
  assert (Hw : BASE_AUDIO_PATH // topic f // name = written).
  { subst written.
    change ("audioFiles/topics/" ++ topic f ++ "/" ++ name)
      with (("audioFiles/topics" ++ String "/" (topic f)) ++ String "/" name).
    rewrite (parse_text_join ("audioFiles/topics" ++ String "/" (topic f)) name).
    - rewrite (parse_text_join "audioFiles/topics" (topic f));
        [reflexivity|reflexivity|discriminate|now apply starts_with_plain].
    - reflexivity.
    - discriminate.
    - subst name. rewrite starts_with_app by exact Hne.
      now apply starts_with_plain. }
  rewrite (generate_podcast_success g w req f script audio Hr (or_introl Hne) Hg Hs).
  unfold speech_file_path. rewrite Hf, Hn, Hu, Hw.
  split; [reflexivity|]. split.
  - cbn [trace fst In]. tauto.
  - intros w' He. unfold download_audio. rewrite Hw, He. reflexivity.
Qed.

End Topics.

Lemma theme_ignores_custom_topic_witness :
  generate_podcast Demo.both_keys Demo.calm
    (inr (JObj [("topic", JStr "MindMatters"); ("custom_topic", JStr "Saving Water")]))
  = generate_podcast Demo.both_keys Demo.calm
      (inr (JObj [("topic", JStr "MindMatters")])).
Proof.
  exact (theme_ignores_custom_topic Demo.both_keys Demo.calm
           [("topic", JStr "MindMatters")]
           [("topic", JStr "MindMatters"); ("custom_topic", JStr "Saving Water")]
           "MindMatters" EmptyString "Saving Water"
           "Narratives that focus on mental health, emotional intelligence, and resilience."
           eq_refl eq_refl eq_refl eq_refl eq_refl eq_refl eq_refl eq_refl).
Defined.

Lemma theme_address_serves_written_file_witness :
  download_audio
    (mkWorld (fun _ => None) (fun _ _ _ => inr (inr "Once upon a time."))
       (fun _ _ _ _ => inr "ID3") (fun _ _ => None) (fun _ => true))
    "MindMatters" "MindMatters.mp3"
  = ret (mkResponse 200
           (File (PathLib.parse "audioFiles/topics/MindMatters/MindMatters.mp3")
              "audio/mpeg")).
Proof.
  assert (Hs : synthesis_succeeds Demo.both_keys Demo.calm
                 (mkFields "MindMatters" EmptyString (JStr "Hindi")
                    (JStr "coral") (FloatLit "0.7"))
                 "Once upon a time." "ID3").
  { exists (OpenAI "sk-1"). repeat split; reflexivity. }
  destruct (theme_address_serves_written_file
              Demo.both_keys Demo.calm
              (inr (JObj [("topic", JStr "MindMatters")]))
              (mkFields "MindMatters" EmptyString (JStr "Hindi")
                 (JStr "coral") (FloatLit "0.7"))
              "Narratives that focus on mental health, emotional intelligence, and resilience."
              "Once upon a time." "ID3"
              eq_refl eq_refl (conj eq_refl eq_refl) Hs) as (_ & _ & H).
  apply H. reflexivity.
Defined.

Section Unregistered.

Variables (g : Globals) (w : World).

(** X7.  For a request whose fields are read (so that the custom topic is
    a string or is absent), with a topic that is not empty and not a
    registered theme, the custom topic enters the run through the folder
    only.  The folder is the base path joined with CustomTopics and with
    the custom topic with spaces replaced: the path
    audioFiles/topics/CustomTopics/<that> unless the custom topic begins
    with a slash, and the absolute path <that> if it does.  The story is
    about the topic, with the description of custom topics; the audio goes
    to the folder joined with <topic with spaces replaced>.mp3, a path that
    extends the folder unless the topic begins with a slash, and that
    absolute path if it does; the address carries the topic and that file
    name. *)
Theorem unregistered_topic_run req f script audio :
  read_fields req = ret f ->
  topic f <> EmptyString ->
  Py.mem (topic f) THEMES = false ->
  script_generated w f script ->
  synthesis_succeeds g w f script audio ->
  let sanitized := Str.replace " " "_" (custom_topic f) in
  let folder := BASE_AUDIO_PATH // "CustomTopics" // sanitized in
  let name := Str.replace " " "_" (topic f) ++ ".mp3" in
  generate_podcast g w req
  = (full_run folder
       (prompt_head ++ Py.str (language f) ++ " about " ++ topic f ++ ". "
          ++ custom_description ++ Str.join Str.LF prompt_tail)
       (temperature f) (voice f) script audio (folder // name),
     inr (success_response script
            (JStr ("/stream-audio/" ++ topic f ++ "/" ++ name))))
  /\ (if Str.starts_with "/" (custom_topic f)
      then folder = PathLib.parse sanitized
      else folder = PathLib.parse ("audioFiles/topics/CustomTopics/" ++ sanitized))
  /\ (if Str.starts_with "/" (topic f)
      then folder // name = PathLib.parse name
      else root (folder // name) = root folder
           /\ exists more, parts (folder // name) = (parts folder ++ more)%list).
Proof.
  intros Hr Ht Hm Hg Hs sanitized folder name. split; [|split].
  - rewrite (generate_podcast_success g w req f script audio Hr (or_introl Ht) Hg Hs).
    assert (Hget : Py.get THEMES (topic f) custom_description = custom_description).
    { unfold Py.get. unfold Py.mem in Hm.
      destruct (Py.lookup (topic f) THEMES); [discriminate Hm|reflexivity]. }
    unfold full_run, speech_file_path, audio_folder, prompt. rewrite Hm, Hget.
    unfold filename, audio_url, Py.or_, Py.truthy.
    clear Hm Hget Hg Hs Hr. subst folder name sanitized.
    destruct (topic f); [congruence|reflexivity].
  - destruct (Str.starts_with "/" (custom_topic f)) eqn:Hc.
    + apply join_absolute. subst sanitized. now rewrite starts_with_replace.
    + symmetry.
      apply (parse_text_join "audioFiles/topics/CustomTopics" sanitized);
        [reflexivity|discriminate|].
      subst sanitized. now rewrite starts_with_replace.
  - assert (Hsn : Str.starts_with "/" name = Str.starts_with "/" (topic f)).
    { subst name. rewrite starts_with_app, starts_with_replace; [reflexivity|].
      intros E. apply Ht. now apply replace_empty. }
    destruct (Str.starts_with "/" (topic f)) eqn:Hts.
    + now apply join_absolute.
    + unfold PathLib.join, PathLib.parse, PathLib.splitroot. cbn [root parts].
      rewrite Hsn. cbn [Str.is_empty root parts]. split; [reflexivity|].
      eexists. reflexivity.
Qed.

(** X8.  For a body whose topic and custom topic are strings and whose
    temperature can be turned into a float, the answer is the 400 rejection
    exactly when both strings consist of white space only. *)
Theorem rejected_iff_blank items t c temp :
  Py.get items "topic" (JStr EmptyString) = JStr t ->
  Py.get items "custom_topic" (JStr EmptyString) = JStr c ->
  Py.float (Py.get items "temperature" (JFloat "0.7")) = inr temp ->
  outcome (generate_podcast g w (inr (JObj items)))
  = inr (error_response "Please provide a topic or custom topic" 400)
  <-> blank t = true /\ blank c = true.
Proof.
  intros Ht Hc Hf.
  assert (Hr : read_fields (inr (JObj items))
               = ret (mkFields (Str.strip t) (Str.strip c)
                        (Py.get items "language" (JStr "Hindi"))
                        (Py.get items "voice" (JStr "coral")) temp)).
  { unfold read_fields, data_get, strip. unfold_monad.
    rewrite Ht, Hc. unfold_monad. rewrite Hf. reflexivity. }
  rewrite (generate_podcast_outcome g w _ _ Hr).
  rewrite <- !strip_empty.
  set (f := mkFields _ _ _ _ _).
  destruct (accepted_or_rejected f) as [Ha|[Et Ec]].
  - destruct (accepted_answer g w f Ha) as [[e He]|(s & url & Ho & _)];
      [rewrite He|rewrite Ho]; (split; [discriminate|]);
      intros [Et Ec]; exfalso; destruct Ha as [Ha|Ha]; apply Ha; assumption.
  - rewrite (respond_rejected g w f Et Ec). tauto.
Qed.

End Unregistered.

Lemma unregistered_topic_run_witness :
  generate_podcast Demo.both_keys Demo.calm
    (inr (JObj [("topic", JStr "Road Safety"); ("custom_topic", JStr "My Town")]))
  = (full_run (PathLib.parse "audioFiles/topics/CustomTopics/My_Town")
       (prompt (JStr "Hindi") "Road Safety" "My Town") (FloatLit "0.7")
       (JStr "coral") "Once upon a time." "ID3"
       (PathLib.parse "audioFiles/topics/CustomTopics/My_Town/Road_Safety.mp3"),
     inr (success_response "Once upon a time."
            (JStr "/stream-audio/Road Safety/Road_Safety.mp3"))).
Proof.
  apply (unregistered_topic_run Demo.both_keys Demo.calm
           (inr (JObj [("topic", JStr "Road Safety");
                       ("custom_topic", JStr "My Town")]))
           (mkFields "Road Safety" "My Town" (JStr "Hindi") (JStr "coral")
              (FloatLit "0.7"))).
  - reflexivity.
  - discriminate.
  - reflexivity.
  - split; reflexivity.
  - exists (OpenAI "sk-1"). repeat split; reflexivity.
Defined.

Lemma rejected_iff_blank_witness :
  outcome (generate_podcast Demo.both_keys Demo.calm
             (inr (JObj [("topic", JStr "   "); ("temperature", JStr "0.2")])))
  = inr (error_response "Please provide a topic or custom topic" 400).
Proof.
  apply (rejected_iff_blank Demo.both_keys Demo.calm
           [("topic", JStr "   "); ("temperature", JStr "0.2")]
           "   " EmptyString (FloatOfStr "0.2") eq_refl eq_refl eq_refl).
  split; reflexivity.
Defined.

(** ** GET /stream-audio *)



(** ** Start-up *)

(** X10.  Start-up never fails.  It keeps the two keys as the environment
    gives them, and the speech client exists afterwards exactly when its
    key is set, not empty, and the constructor returned the client; when
    the constructor raises, the exception is caught and a warning is
    printed. *)
Theorem module_init_client getenv new_client :
  exists t g,
    module_init getenv new_client = (t, inr g)
    /\ GEMINI_API_KEY g = getenv "GEMINI_API_KEY"
    /\ OPENAI_API_KEY g = getenv "OPENAI_API_KEY"
    /\ (forall c,
          openai_client g = Some c
          <-> exists k,
                getenv "OPENAI_API_KEY" = Some k /\ k <> EmptyString
                /\ new_client k = inr c)
    /\ (forall k e,
          getenv "OPENAI_API_KEY" = Some k -> k <> EmptyString ->
          new_client k = inl e ->
          t = [ERaise e;
               EPrint ("Warning: OpenAI client initialization failed: "
                       ++ exn_str e)]).
Proof.
  unfold module_init.
  destruct (getenv "OPENAI_API_KEY") as [k|] eqn:Hk.
  - destruct k as [|a k]; cbn [Py.truthy Str.is_empty negb].
    + eexists. eexists. split; [reflexivity|]. cbn [GEMINI_API_KEY OPENAI_API_KEY openai_client].
      repeat split; try discriminate.
      * intros (k' & [= <-] & Hne & _). congruence.
      * intros k' e [= <-] Hne. congruence.
    + destruct (new_client (String a k)) as [e|c] eqn:Hn; unfold_monad.
      * eexists. eexists. split; [reflexivity|].
        cbn [GEMINI_API_KEY OPENAI_API_KEY openai_client].
        repeat split; try discriminate.
        -- intros (k' & [= <-] & _ & Hc). congruence.
        -- intros k' e' [= <-] _ He. congruence.
      * eexists. eexists. split; [reflexivity|].
        cbn [GEMINI_API_KEY OPENAI_API_KEY openai_client].
        repeat split.
        -- intros [= <-]. exists (String a k). repeat split; [discriminate|exact Hn].
        -- intros (k' & [= <-] & _ & Hc). congruence.
        -- intros k' e' [= <-] _ He. congruence.
  - eexists. eexists. split; [reflexivity|].
    cbn [GEMINI_API_KEY OPENAI_API_KEY openai_client].
    repeat split; try discriminate.
    intros (k' & Hk' & _). discriminate Hk'.
Qed.

Section WithoutClient.

Variables (g : Globals) (w : World).

Lemma url_null_without_client req script url :
  openai_client g = None ->
  outcome (generate_podcast g w req) = inr (success_response script url) ->
  url = JNull.
Proof.
  intros Hc. destruct (read_fields_cases req) as [[f Hr]|[e Hr]].
  - rewrite (generate_podcast_outcome g w req f Hr).
    destruct (accepted_or_rejected f) as [Ha|[Et Ec]].
    + destruct (accepted_answer g w f Ha)
        as [[e He]|(s & u & Ho & _ & [[-> _]|[_ [audio (c & Hc' & _)]]])];
        [rewrite He|rewrite Ho|congruence]; intros E; try discriminate E.
      now injection E.
    + rewrite (respond_rejected g w f Et Ec). discriminate.
  - rewrite (generate_podcast_unread g w req e Hr). discriminate.
Qed.

End WithoutClient.

(** X11.  When the speech key is set but the constructor of the client
    raises, the application starts all the same; GET /test then reports the
    key as set, and no request ever gets an address for its audio. *)
Theorem failed_client_is_reported_as_set getenv new_client k e :
  getenv "OPENAI_API_KEY" = Some k ->
  k <> EmptyString ->
  new_client k = inl e ->
  exists t g,
    module_init getenv new_client = (t, inr g)
    /\ test_endpoint g
       = ret (jsonify [("status", JStr "success");
                       ("message", JStr "API is working");
                       ("gemini_key_set", JBool (key_set (getenv "GEMINI_API_KEY")));
                       ("openai_key_set", JBool true)])
    /\ forall w req script url,
         outcome (generate_podcast g w req) = inr (success_response script url) ->
         url = JNull.
Proof.
  intros Hk Hne He. unfold module_init. rewrite Hk.
  destruct k as [|a k]; [congruence|]. cbn [Py.truthy Str.is_empty negb].
  rewrite He. unfold_monad. eexists. eexists. split; [reflexivity|]. split.
  - reflexivity.
  - intros w req script url. now apply url_null_without_client.
Qed.

Lemma failed_client_is_reported_as_set_witness :
  exists t g,
    module_init (fun _ => Some "sk-1")
      (fun _ => inl (Exn "OpenAIError" "bad key")) = (t, inr g)
    /\ test_endpoint g
       = ret (jsonify [("status", JStr "success");
                       ("message", JStr "API is working");
                       ("gemini_key_set", JBool true);
                       ("openai_key_set", JBool true)])
    /\ forall w req script url,
         outcome (generate_podcast g w req) = inr (success_response script url) ->
         url = JNull.
Proof.
  apply (failed_client_is_reported_as_set (fun _ => Some "sk-1")
           (fun _ => inl (Exn "OpenAIError" "bad key")) "sk-1"
           (Exn "OpenAIError" "bad key")).
  - reflexivity.
  - discriminate.
  - reflexivity.
Defined.

(** ** Names of files *)

Lemma replace_idempotent s :
  Str.replace " " "_" (Str.replace " " "_" s) = Str.replace " " "_" s.
Proof.
  induction s as [|a s IH]; cbn [Str.replace]; [reflexivity|].
  rewrite IH. destruct (Ascii.eqb_spec a " ") as [->|Ha]; [reflexivity|].
  destruct (Ascii.eqb_spec a " "); [contradiction|reflexivity].
Qed.

Lemma replace_without_underscore s :
  Str.contains "_" (Str.replace " " "_" s) = false ->
  Str.replace " " "_" s = s.
Proof.
  induction s as [|a s IH]; cbn [Str.replace Str.contains]; [reflexivity|].
  intros H. apply orb_false_iff in H as [Ha Hs]. rewrite (IH Hs).
  destruct (Ascii.eqb_spec a " ") as [->|_]; [discriminate Ha|reflexivity].
Qed.

Lemma theme_without_underscore topic description :
  Py.lookup topic THEMES = Some description ->
  Str.contains "_" topic = false.
Proof.
  intros H. pose proof (lookup_In _ _ _ H) as Hin. cbn [In THEMES] in Hin.
  repeat (destruct Hin as [[= <- <-]|Hin]; [reflexivity|]).
  destruct Hin.
Qed.

(** X12.  A topic that is not a registered theme and the same topic with
    its spaces replaced by underscores are stored at the same place: the
    second is not a theme either, and for every custom topic both get the
    same folder and the same file. *)
Theorem underscore_topics_collide topic custom_topic :
  topic <> EmptyString ->
  Py.mem topic THEMES = false ->
  let topic' := Str.replace " " "_" topic in
  Py.mem topic' THEMES = false
  /\ audio_folder topic' custom_topic = audio_folder topic custom_topic
  /\ speech_file_path topic' custom_topic = speech_file_path topic custom_topic.
Proof.
  intros Hne Hm topic'.
  assert (Hm' : Py.mem topic' THEMES = false).
  { unfold Py.mem. destruct (Py.lookup topic' THEMES) as [d|] eqn:Hl; [|reflexivity].
    exfalso. pose proof (theme_without_underscore _ _ Hl) as Hu.
    subst topic'. rewrite (replace_without_underscore _ Hu) in Hl.
    unfold Py.mem in Hm. rewrite Hl in Hm. discriminate Hm. }
  assert (Hf : audio_folder topic' custom_topic = audio_folder topic custom_topic).
  { unfold audio_folder. now rewrite Hm, Hm'. }
  split; [exact Hm'|]. split; [exact Hf|].
  unfold speech_file_path. rewrite Hf. f_equal.
  assert (Hor : forall t, t <> EmptyString -> Py.or_ t custom_topic = t).
  { intros t Ht. unfold Py.or_, Py.truthy. destruct t; [congruence|reflexivity]. }
  unfold filename. subst topic'. rewrite (Hor topic Hne), Hor.
  - now rewrite replace_idempotent.
  - intros E. apply Hne. now apply replace_empty.
Qed.

Lemma underscore_topics_collide_witness :
  speech_file_path "Road_Safety" EmptyString
  = speech_file_path "Road Safety" EmptyString.
Proof.
  apply (underscore_topics_collide "Road Safety" EmptyString).
  - discriminate.
  - reflexivity.
Defined.

(** ** Bodies that cannot be read *)

(** X13.  A body that is not an object, and a topic or custom topic that is
    present but is not a string (null included), are answered 500 with the
    text of Python's AttributeError, and so is a failure of [request.json]
    with its own text; in each case no outside call is made. *)
Theorem unreadable_request g w :
  (forall e,
     generate_podcast g w (inl e)
     = ([ERaise e], inr (error_response (exn_str e) 500)))
  /\ (forall data,
        (forall items, data <> JObj items) ->
        generate_podcast g w (inr data)
        = ([ERaise (Py.AttributeError data "get")],
           inr (error_response
                  ("'" ++ Py.type_name data ++ "' object has no attribute 'get'")
                  500)))
  /\ (forall items v,
        Py.lookup "topic" items = Some v ->
        (forall s, v <> JStr s) ->
        generate_podcast g w (inr (JObj items))
        = ([ERaise (Py.AttributeError v "strip")],
           inr (error_response
                  ("'" ++ Py.type_name v ++ "' object has no attribute 'strip'")
                  500)))
  /\ (forall items t v,
        Py.get items "topic" (JStr EmptyString) = JStr t ->
        Py.lookup "custom_topic" items = Some v ->
        (forall s, v <> JStr s) ->
        generate_podcast g w (inr (JObj items))
        = ([ERaise (Py.AttributeError v "strip")],
           inr (error_response
                  ("'" ++ Py.type_name v ++ "' object has no attribute 'strip'")
                  500))).
Proof.
  split; [reflexivity|]. split; [|split].
  - intros data H. apply generate_podcast_unread.
    destruct data; try reflexivity. exfalso. now apply (H items).
  - intros items v Hl Hv. apply generate_podcast_unread.
    unfold read_fields, data_get, strip, Py.get. unfold_monad. rewrite Hl.
    destruct v; try reflexivity. exfalso. now apply (Hv s).
  - intros items t v Ht Hl Hv. apply generate_podcast_unread.
    unfold read_fields, data_get, strip. unfold_monad. rewrite Ht. unfold_monad.
    unfold Py.get. rewrite Hl.
    destruct v; try reflexivity. exfalso. now apply (Hv s).
Qed.

Lemma unreadable_request_witness :
  generate_podcast Demo.both_keys Demo.calm
    (inr (JObj [("topic", JNull); ("custom_topic", JStr "Saving Water")]))
  = ([ERaise (Py.AttributeError JNull "strip")],
     inr (error_response "'NoneType' object has no attribute 'strip'" 500)).
Proof.
  apply (proj1 (proj2 (proj2 (unreadable_request Demo.both_keys Demo.calm)))
           [("topic", JNull); ("custom_topic", JStr "Saving Water")] JNull).
  - reflexivity.
  - discriminate.
Defined.

(** ** A custom topic sent alone *)






(** ** White space around a topic *)

Lemma lstrip_blank_app a x : blank a = true -> Str.lstrip (a ++ x) = Str.lstrip x.
Proof.
  induction a as [|c a IH]; cbn [blank String.append Str.lstrip]; [reflexivity|].
  intros H. apply andb_true_iff in H as [Hc Ha]. rewrite Hc. now apply IH.
Qed.

Lemma rstrip_app_blank x b : blank b = true -> Str.rstrip (x ++ b) = Str.rstrip x.
Proof.
  intros Hb. induction x as [|c x IH]; cbn [String.append Str.rstrip].
  - now apply rstrip_empty.
  - now rewrite IH.
Qed.

Lemma lstrip_app t b :
  Str.lstrip (t ++ b) = if blank t then Str.lstrip b else Str.lstrip t ++ b.
Proof.
  induction t as [|c t IH]; cbn [String.append Str.lstrip blank]; [reflexivity|].
  destruct (Str.isspace c); cbn [andb]; [exact IH|reflexivity].
Qed.

(** White space before and after a string does not change what it trims to. *)
Lemma strip_padded a t b :
  blank a = true -> blank b = true -> Str.strip (a ++ t ++ b) = Str.strip t.
Proof.
  intros Ha Hb. unfold Str.strip. rewrite (lstrip_blank_app a _ Ha), lstrip_app.
  destruct (blank t) eqn:Ht.
  - apply lstrip_empty in Hb. rewrite Hb.
    apply lstrip_empty in Ht. rewrite Ht. reflexivity.
  - now apply rstrip_app_blank.
Qed.

(** X15.  White space around the topic and around the custom topic is
    ignored: two bodies that differ only by such white space have the same
    run and the same answer. *)
Theorem surrounding_space_ignored g w items items' a t b a' c b' :
  blank a = true -> blank b = true -> blank a' = true -> blank b' = true ->
  Py.get items "topic" (JStr EmptyString) = JStr (a ++ t ++ b) ->
  Py.get items' "topic" (JStr EmptyString) = JStr t ->
  Py.get items "custom_topic" (JStr EmptyString) = JStr (a' ++ c ++ b') ->
  Py.get items' "custom_topic" (JStr EmptyString) = JStr c ->
  Py.get items "language" (JStr "Hindi") = Py.get items' "language" (JStr "Hindi") ->
  Py.get items "voice" (JStr "coral") = Py.get items' "voice" (JStr "coral") ->
  Py.get items "temperature" (JFloat "0.7")
  = Py.get items' "temperature" (JFloat "0.7") ->
  generate_podcast g w (inr (JObj items)) = generate_podcast g w (inr (JObj items')).
Proof.
  intros Ha Hb Ha' Hb' Ht Ht' Hc Hc' Hl Hv Hte.
  unfold generate_podcast, generate_podcast_body. f_equal. f_equal.
  unfold read_fields, data_get, strip. unfold_monad.
  rewrite Ht, Ht', Hc, Hc', Hl, Hv, Hte.
  now rewrite (strip_padded a t b Ha Hb), (strip_padded a' c b' Ha' Hb').
Qed.

Lemma surrounding_space_ignored_witness :
  generate_podcast Demo.both_keys Demo.calm
    (inr (JObj [("topic", JStr "  MindMatters ")]))
  = generate_podcast Demo.both_keys Demo.calm
      (inr (JObj [("topic", JStr "MindMatters")])).
Proof.
  exact (surrounding_space_ignored Demo.both_keys Demo.calm
           [("topic", JStr "  MindMatters ")] [("topic", JStr "MindMatters")]
           "  " "MindMatters" " " EmptyString EmptyString EmptyString
           eq_refl eq_refl eq_refl eq_refl eq_refl eq_refl eq_refl eq_refl
           eq_refl eq_refl eq_refl).
Defined.

(** ** Start of the server *)

Section DecimalWriting.

Import Decimal.

Lemma written_lstrip d :
  Py.float_lstrip (NilEmpty.string_of_uint d) = NilEmpty.string_of_uint d.
Proof. destruct d; reflexivity. Qed.

Lemma written_skip_sign d :
  Py.skip_sign (NilEmpty.string_of_uint d) = NilEmpty.string_of_uint d.
Proof. destruct d; reflexivity. Qed.

Lemma written_not_minus d :
  PyInt.is_minus (NilEmpty.string_of_uint d) = false.
Proof. destruct d; reflexivity. Qed.

Lemma written_scan d :
  PyInt.scan (NilEmpty.string_of_uint d)
  = (NilEmpty.string_of_uint d, EmptyString).
Proof.
  induction d; cbn [NilEmpty.string_of_uint PyInt.scan]; [reflexivity|..];
    rewrite IHd; reflexivity.
Qed.

Lemma written_underscores_ok d prev :
  Py.is_underscore prev = false ->
  Py.underscores_ok prev (NilEmpty.string_of_uint d) = true.
Proof.
  revert prev.
  induction d; intros prev Hp; cbn [NilEmpty.string_of_uint Py.underscores_ok];
    [now rewrite Hp|..];
    rewrite IHd by reflexivity; rewrite Hp; reflexivity.
Qed.

Lemma written_remove_underscores d :
  Py.remove_underscores (NilEmpty.string_of_uint d) = NilEmpty.string_of_uint d.
Proof.
  induction d; cbn [NilEmpty.string_of_uint Py.remove_underscores];
    [reflexivity|..]; rewrite IHd; reflexivity.
Qed.

(** [int] reads back a decimal writing that is not empty. *)
Lemma int_written d :
  d <> Nil ->
  (String.length (NilEmpty.string_of_uint d) <= PyInt.max_str_digits)%nat ->
  PyInt.int (NilEmpty.string_of_uint d) = inr (Z.of_uint d)
  /\ PyInt.int (String "-" (NilEmpty.string_of_uint d)) = inr (- Z.of_uint d)%Z.
Proof.
  intros Hd Hl. apply Nat.ltb_ge in Hl.
  assert (Hminus : PyInt.int (String "-" (NilEmpty.string_of_uint d))
                   = inr (- Z.of_uint d)%Z).
  { unfold PyInt.int.
    change (Py.float_lstrip (String "-" (NilEmpty.string_of_uint d)))
      with (String "-" (NilEmpty.string_of_uint d)).
    change (Py.skip_sign (String "-" (NilEmpty.string_of_uint d)))
      with (NilEmpty.string_of_uint d).
    rewrite written_scan, written_underscores_ok by reflexivity.
    cbn [negb]. rewrite written_remove_underscores, Hl, NilEmpty.usu.
    destruct d; [congruence|reflexivity..]. }
  split; [|exact Hminus].
  unfold PyInt.int.
  rewrite written_lstrip, written_skip_sign, written_scan.
  rewrite written_underscores_ok by reflexivity.
  cbn [negb]. rewrite written_remove_underscores, Hl, NilEmpty.usu.
  rewrite written_not_minus.
  destruct d; [congruence|reflexivity..].
Qed.

Lemma int_of_Z n :
  (String.length (Str.of_Z n) <= PyInt.max_str_digits)%nat ->
  PyInt.int (Str.of_Z n) = inr n.
Proof.
  unfold Str.of_Z. intros Hl.
  rewrite <- (DecimalZ.of_to n) at 2.
  destruct (Z.to_int n) as [d|d]; cbn [NilZero.string_of_int Z.of_int] in *.
  - destruct d; [reflexivity|..];
      (apply int_written; [discriminate|exact Hl]).
  - destruct d; [reflexivity|..];
      (apply int_written; [discriminate|]);
      cbn [String.length] in Hl; unfold NilZero.string_of_uint in Hl; lia.
Qed.

End DecimalWriting.

(** X16.  The server is started on all interfaces in debug mode, on port
    5000 when PORT is not in the environment, and on the number that PORT
    writes in decimal when it is. *)
Theorem port_from_environment getenv :
  (getenv "PORT" = None -> main getenv = inr ("0.0.0.0", 5000%Z, true))
  /\ (forall n,
        (String.length (Str.of_Z n) <= 4300)%nat ->
        getenv "PORT" = Some (Str.of_Z n) ->
        main getenv = inr ("0.0.0.0", n, true)).
Proof.
  split.
  - intros H. unfold main. now rewrite H.
  - intros n Hl H. unfold main. rewrite H, (int_of_Z n Hl). reflexivity.
Qed.

Lemma port_from_environment_witness :
  main (fun _ => Some "8080") = inr ("0.0.0.0", 8080%Z, true).
Proof.
  apply (proj2 (port_from_environment (fun _ => Some "8080")) 8080%Z).
  - vm_compute. lia.
  - reflexivity.
Defined.

(** ** One place per topic *)

(** Whatever a run writes, it writes at the path of line 98. *)
Lemma written_path g w req f audio p :
  read_fields req = ret f ->
  In (EStreamToFile audio p) (trace (generate_podcast g w req)) ->
  p = speech_file_path (topic f) (custom_topic f).
Proof.
  intros Hr. rewrite (generate_podcast_trace g w req f Hr).
  unfold respond, synthesize. unfold_monad.
  repeat case_step; unfold_monad; cbn [In]; intros Hin;
    repeat (destruct Hin as [Hin|Hin]; [try discriminate Hin|]);
    try contradiction; now injection Hin.
Qed.

(** X17.  The place of the audio depends on the trimmed topic and custom
    topic only: two requests that agree on them, whatever their language,
    voice and temperature, and whatever the state of the outside, write to
    the same path, so that the later audio replaces the earlier. *)
Theorem same_topic_same_file g1 w1 req1 f1 g2 w2 req2 f2 audio1 p1 audio2 p2 :
  read_fields req1 = ret f1 ->
  read_fields req2 = ret f2 ->
  topic f1 = topic f2 ->
  custom_topic f1 = custom_topic f2 ->
  In (EStreamToFile audio1 p1) (trace (generate_podcast g1 w1 req1)) ->
  In (EStreamToFile audio2 p2) (trace (generate_podcast g2 w2 req2)) ->
  p1 = p2.
Proof.
  intros Hr1 Hr2 Ht Hc H1 H2.
  rewrite (written_path g1 w1 req1 f1 audio1 p1 Hr1 H1).
  rewrite (written_path g2 w2 req2 f2 audio2 p2 Hr2 H2).
  now rewrite Ht, Hc.
Qed.

Lemma same_topic_same_file_witness :
  PathLib.parse "audioFiles/topics/MindMatters/MindMatters.mp3"
  = PathLib.parse "audioFiles/topics/MindMatters/MindMatters.mp3".
Proof.
  apply (same_topic_same_file
           Demo.both_keys Demo.calm
           (inr (JObj [("topic", JStr "MindMatters"); ("language", JStr "English")]))
           (mkFields "MindMatters" EmptyString (JStr "English") (JStr "coral")
              (FloatLit "0.7"))
           Demo.other_keys Demo.disk_full
           (inr (JObj [("topic", JStr "MindMatters"); ("voice", JStr "alloy");
                       ("temperature", JInt 1)]))
           (mkFields "MindMatters" EmptyString (JStr "Hindi") (JStr "alloy")
              (FloatOfInt 1))
           "ID3" _ "ID3" _ eq_refl eq_refl eq_refl eq_refl).
  - vm_compute. tauto.
  - vm_compute. tauto.
Defined.

Lemma module_init_client_witness :
  exists t g,
    module_init (fun _ => Some "sk-1")
      (fun _ => inl (Exn "OpenAIError" "bad key")) = (t, inr g)
    /\ t = [ERaise (Exn "OpenAIError" "bad key");
            EPrint "Warning: OpenAI client initialization failed: bad key"].
Proof.
  destruct (module_init_client (fun _ => Some "sk-1")
              (fun _ => inl (Exn "OpenAIError" "bad key")))
    as (t & g & Hi & _ & _ & _ & Ht).
  exists t, g. split; [exact Hi|].
  apply (Ht "sk-1" (Exn "OpenAIError" "bad key")); [reflexivity|discriminate|reflexivity].
Defined.
